(** * SecondaryTableController: reference counting, route and fwmark rules

    A shallow embedding of [SecondaryTableController.cpp].  The controller
    owns one piece of state, the map [mNetIdRuleCount]; everything else it
    does is an invocation of an external collaborator (the [ip] tool through
    [runCmd], [iptables] through [execIptables], the network controller's
    UID registry) or a reply on the client socket.  The embedding threads a
    [Controller] record through a small state monad and logs every external
    invocation, with the status it returned, in [trace]. *)

From stdpp Require Import base numbers gmap strings pretty list.
From Stdlib Require Import Ascii.

Local Open Scope Z_scope.

(** ** Machine integers *)

(** [unsigned]: arithmetic modulo 2^32. *)
Definition uint32 (n : N) : N := (n mod 2 ^ 32)%N.

(** [int] as the compiled code computes it: two's complement on 32 bits. *)
Definition INT_MAX : Z := 2 ^ 31 - 1.
Definition sint32 (z : Z) : Z := (z + 2 ^ 31) mod 2 ^ 32 - 2 ^ 31.

(** [snprintf(buf, size, ...)] keeps at most [size - 1] characters. *)
Definition snprintf (size : nat) (s : string) : string :=
  String.substring 0 (size - 1) s.

(** ** Constants *)

(** <errno.h> *)
Definition EBUSY : Z := 16.
Definition ENODEV : Z := 19.
Definition EINVAL : Z := 22.

(** <net/if.h> *)
Definition IFNAMSIZ : nat := 16.

(** The constants of NetdConstants.h and SecondaryTableController.h, which
    this file includes but which are not part of it, are parameters. *)
Record Constants := {
  IP_PATH : string;
  ADD : string;
  DEL : string;
  BASE_TABLE_NUMBER : N;
  RULE_PRIO : string;
}.

Definition LOCAL_MANGLE_OUTPUT : string := "st_mangle_OUTPUT".
Definition LOCAL_NAT_POSTROUTING : string := "st_nat_POSTROUTING".
Definition LOCAL_FILTER_OUTPUT : string := "st_filter_OUTPUT".

(** [LOCAL_MANGLE_IFACE_FORMAT] applied to an interface name. *)
Definition LOCAL_MANGLE_IFACE_FORMAT (iface : string) : string :=
  "st_mangle_" +:+ iface +:+ "_OUTPUT".

Inductive IptablesTarget := V4 | V6 | V4V6.

Inductive ResponseCode := CommandOkay | OperationFailed | GetMarkResult.

(** ** External invocations *)

Inductive Call :=
| Exec (argv : list string)
| Iptables (target : IptablesTarget) (args : list string)
| UidRange (uid_start uid_end : Z) (netId : N) (forward_dns : bool).

(** An invocation together with the status it returned. *)
Definition Event : Type := Call * Z.

(** The collaborators.  A status may depend on everything that was invoked
    before, which is what [list Event] stands for. *)
Record Env := {
  getNetworkId : string → N;
  android_fork_execvp : list Event → list string → Z;
  iptables_status : list Event → IptablesTarget → list string → Z;
  setNetworkForUidRange : list Event → Z → Z → N → bool → bool;
}.

Definition is_kernel_command (e : Event) : bool :=
  match e.1 with
  | Exec _ | Iptables _ _ => true
  | UidRange _ _ _ _ => false
  end.

(** ** Controller state *)

Record Controller := {
  mNetIdRuleCount : gmap N Z;
  errno : Z;
  trace : list Event;
  sent : list (ResponseCode * string * bool);
}.

Definition M (A : Type) : Type := Controller → A * Controller.

Global Instance M_ret : MRet M := λ A a s, (a, s).

Global Instance M_bind : MBind M :=
  λ A B k c s, let '(a, s') := c s in k a s'.

Definition set_errno (e : Z) : M unit :=
  λ s, (tt, {| mNetIdRuleCount := mNetIdRuleCount s; errno := e;
               trace := trace s; sent := sent s |}).

Definition set_map (m : gmap N Z) : M unit :=
  λ s, (tt, {| mNetIdRuleCount := m; errno := errno s;
               trace := trace s; sent := sent s |}).

Definition get_map : M (gmap N Z) := λ s, (mNetIdRuleCount s, s).

Definition log (c : Call) (status : Z) : M unit :=
  λ s, (tt, {| mNetIdRuleCount := mNetIdRuleCount s; errno := errno s;
               trace := trace s ++ [(c, status)]; sent := sent s |}).

(** [cli->sendMsg(code, msg, addErrno)] *)
Definition sendMsg (code : ResponseCode) (msg : string) (addErrno : bool)
  : M unit :=
  λ s, (tt, {| mNetIdRuleCount := mNetIdRuleCount s; errno := errno s;
               trace := trace s; sent := sent s ++ [(code, msg, addErrno)] |}).

(** ** std::map<unsigned, int> *)

(** [m.count(k)] *)
Definition map_count (m : gmap N Z) (k : N) : Z :=
  match m !! k with Some _ => 1 | None => 0 end.

(** [m[k]] read: a missing key reads as a value-initialised [int]. *)
Definition map_at (m : gmap N Z) (k : N) : Z := default 0 (m !! k).

(** [m.erase(m.find(k))] for a key that [find] locates. *)
Definition map_erase (m : gmap N Z) (k : N) : gmap N Z := delete k m.

(** The counter the specification calls [count(netId)]. *)
Definition refcount (s : Controller) (netId : N) : Z :=
  map_at (mNetIdRuleCount s) netId.

Section Controller.

Variable K : Constants.
Variable E : Env.

(** [snprintf(.., "%u", netId + BASE_TABLE_NUMBER)] into [char[11]] *)
Definition tableIndex_str (netId : N) : string :=
  snprintf 11 (pretty (uint32 (netId + BASE_TABLE_NUMBER K))).

(** ** runCmd, execIptables and the registry *)

Definition runCmd (argv : list string) : M Z :=
  λ s, let r := android_fork_execvp E (trace s) argv in
       (r, (log (Exec argv) r s).2).

Definition execIptables (target : IptablesTarget) (args : list string) : M Z :=
  λ s, let r := iptables_status E (trace s) target args in
       (r, (log (Iptables target args) r s).2).

Definition mNetCtrl_setNetworkForUidRange
    (uid_start uid_end : Z) (netId : N) (forward_dns : bool) : M bool :=
  λ s, let b := setNetworkForUidRange E (trace s) uid_start uid_end netId
                  forward_dns in
       (b, (log (UidRange uid_start uid_end netId forward_dns)
                (Z.b2z b) s).2).

(** ** modifyRuleCount *)

Definition modifyRuleCount (netId : N) (action : string) : M unit :=
  m ← get_map;
  if String.eqb action (ADD K) then
    let m := if decide (map_count m netId = 0) then <[netId := 0]> m else m in
    set_map (<[netId := sint32 (map_at m netId + 1)]> m)
  else
    if decide (map_count m netId > 0) then
      let m := <[netId := sint32 (map_at m netId - 1)]> m in
      if decide (map_at m netId < 1) then set_map (map_erase m netId)
      else set_map m
    else mret tt.

(** ** modifyRoute, addRoute, removeRoute *)

(** The two [cmd] arrays of [modifyRoute]: the route through the device
    alone, and the route through a gateway. *)
Definition cmd_dev (action dest_str iface tableIndex_str : string)
  : list string :=
  [IP_PATH K; "route"; action; dest_str; "dev"; iface; "table";
   tableIndex_str].

Definition cmd_via (action dest_str gateway iface tableIndex_str : string)
  : list string :=
  [IP_PATH K; "route"; action; dest_str; "via"; gateway; "dev"; iface;
   "table"; tableIndex_str].

(** [snprintf(dest_str, sizeof(dest_str), "%s/%d", dest, prefix)] into
    [char[44]] *)
Definition dest_str (dest : string) (prefix : Z) : string :=
  snprintf 44 (dest +:+ "/" +:+ pretty prefix).

Definition modifyRoute (action iface dest : string) (prefix : Z)
    (gateway : string) (netId : N) : M Z :=
  let dest_str := dest_str dest prefix in
  let tableIndex_str := tableIndex_str netId in
  ret ←
    (if String.eqb "::" gateway then
       runCmd (cmd_dev action dest_str iface tableIndex_str)
     else
       runCmd (cmd_via action dest_str gateway iface tableIndex_str));
  if decide (ret ≠ 0) then
    set_errno ENODEV;;
    sendMsg OperationFailed "ip route modification failed" true;;
    mret (-1)
  else
    modifyRuleCount netId action;;
    sendMsg CommandOkay "Route modified" false;;
    mret 0.

Definition addRoute (iface dest : string) (prefix : Z) (gateway : string)
  : M Z :=
  modifyRoute (ADD K) iface dest prefix gateway (getNetworkId E iface).

Definition removeRoute (iface dest : string) (prefix : Z) (gateway : string)
  : M Z :=
  modifyRoute (DEL K) iface dest prefix gateway (getNetworkId E iface).

(** ** setFwmarkRule, addFwmarkRule, removeFwmarkRule *)

(** [snprintf(chain_str, sizeof(chain_str), LOCAL_MANGLE_IFACE_FORMAT,
    iface)] into [char[IFNAMSIZ + 18]] *)
Definition chain_str (iface : string) : string :=
  snprintf (IFNAMSIZ + 18) (LOCAL_MANGLE_IFACE_FORMAT iface).

Definition add_del (add : bool) : string := if add then "add" else "del".
Definition A_D (add : bool) : string := if add then "-A" else "-D".

(** The argument vectors of [setFwmarkRule], named as in the source. *)
Definition route_cmd (iface : string) (add : bool) (mark_str : string)
  : list string :=
  [IP_PATH K; "route"; add_del add; "default"; "dev"; iface; "table";
   mark_str].

Definition fwmark_cmd (add : bool) (mark_str : string) : list string :=
  [IP_PATH K; "rule"; add_del add; "prio"; RULE_PRIO K; "fwmark"; mark_str;
   "table"; mark_str].

Definition route6_cmd (iface : string) (add : bool) (mark_str : string)
  : list string :=
  [IP_PATH K; "-6"; "route"; add_del add; "default"; "dev"; iface; "table";
   mark_str].

Definition fwmark6_cmd (add : bool) (mark_str : string) : list string :=
  [IP_PATH K; "-6"; "rule"; add_del add; "prio"; RULE_PRIO K; "fwmark";
   mark_str; "table"; mark_str].

Definition nat_args (iface : string) (add : bool) (mark_str : string)
  : list string :=
  ["-t"; "nat"; A_D add; LOCAL_NAT_POSTROUTING; "-o"; iface; "-m"; "mark";
   "--mark"; mark_str; "-j"; "MASQUERADE"].

Definition reject_args (add : bool) (mark_str : string) : list string :=
  ["-t"; "filter"; A_D add; LOCAL_FILTER_OUTPUT; "-m"; "mark"; "--mark";
   mark_str; "-j"; "REJECT"].

Definition setFwmarkRule (iface : string) (add : bool) : M Z :=
  let netId := getNetworkId E iface in
  m ← get_map;
  if decide (map_count m netId > 0) then
    set_errno EBUSY;;
    mret (-1)
  else
    let mark_str := tableIndex_str netId in
    ret ← runCmd (route_cmd iface add mark_str);
    ret ← runCmd (fwmark_cmd add mark_str);
    if decide (ret ≠ 0) then mret ret else
    ret ← runCmd (route6_cmd iface add mark_str);
    ret ← runCmd (fwmark6_cmd add mark_str);
    if decide (ret ≠ 0) then mret ret else
    let chain_str := chain_str iface in
    ret ←
      (if add then
         ret ← execIptables V4V6 ["-t"; "mangle"; "-N"; chain_str];
         r ← execIptables V4V6
               ["-t"; "mangle"; "-I"; LOCAL_MANGLE_OUTPUT; "3"; "-m"; "mark";
                "--mark"; mark_str; "-g"; chain_str];
         let ret := Z.lor ret r in
         r ← execIptables V4V6
               ["-t"; "mangle"; "-A"; chain_str; "-j"; "MARK"; "--set-mark";
                "0"];
         mret (Z.lor ret r)
       else
         ret ← execIptables V4V6
                 ["-t"; "mangle"; "-D"; LOCAL_MANGLE_OUTPUT; "-m"; "mark";
                  "--mark"; mark_str; "-g"; chain_str];
         r ← execIptables V4V6 ["-t"; "mangle"; "-F"; chain_str];
         let ret := Z.lor ret r in
         r ← execIptables V4V6 ["-t"; "mangle"; "-X"; chain_str];
         mret (Z.lor ret r));
    ret ← execIptables V4 (nat_args iface add mark_str);
    if decide (ret ≠ 0) then mret ret else
    ret ← execIptables V6 (nat_args iface add mark_str);
    if decide (ret ≠ 0) then
      execIptables V6 (reject_args add mark_str)
    else mret ret.

Definition addFwmarkRule (iface : string) : M Z := setFwmarkRule iface true.

Definition removeFwmarkRule (iface : string) : M Z :=
  setFwmarkRule iface false.

(** ** setUidRule, addUidRule, removeUidRule *)

Definition setUidRule (iface : string) (uid_start uid_end : Z) (add : bool)
  : M Z :=
  let netId := getNetworkId E iface in
  ok ← mNetCtrl_setNetworkForUidRange uid_start uid_end
         (if add then netId else 0%N) false;
  if negb ok then
    set_errno EINVAL;;
    mret (-1)
  else
    let uid_str := snprintf 24 (pretty uid_start +:+ "-" +:+ pretty uid_end) in
    let chain_str := chain_str iface in
    execIptables V4V6
      ["-t"; "mangle"; A_D add; LOCAL_MANGLE_OUTPUT; "-m"; "owner";
       "--uid-owner"; uid_str; "-g"; chain_str].

Definition addUidRule (iface : string) (uid_start uid_end : Z) : M Z :=
  setUidRule iface uid_start uid_end true.

Definition removeUidRule (iface : string) (uid_start uid_end : Z) : M Z :=
  setUidRule iface uid_start uid_end false.

End Controller.

(** ** The remaining operations *)

Definition LOCAL_MANGLE_EXEMPT : string := "st_mangle_EXEMPT".

(** [strchr(s, c) != NULL] for a character other than the terminator. *)
Fixpoint strchr (s : string) (c : ascii) : bool :=
  match s with
  | EmptyString => false
  | String a s => if Ascii.eqb a c then true else strchr s c
  end.

Definition getVersion (addr : string) : string :=
  if strchr addr ":"%char then "-6" else "-4".

Definition getIptablesTarget (addr : string) : IptablesTarget :=
  if strchr addr ":"%char then V6 else V4.

Section Operations.

Variable K : Constants.
Variable E : Env.

(** Two more constants of the headers, and the network controller's
    [getNetwork(uid, NETID_UNSET, PID_UNSPECIFIED, false)], whose answer may
    depend on what the registry was asked before. *)
Variable PROTECT_MARK : Z.
Variable EXEMPT_PRIO : string.
Variable getNetwork : list Event → Z → N.

(** [snprintf(protect_mark_str, sizeof(protect_mark_str), "%d",
    PROTECT_MARK)] into [char[11]] *)
Definition protect_mark_str : string := snprintf 11 (pretty PROTECT_MARK).

Definition setupIptablesHooks : M Z :=
  res ← execIptables E V4V6 ["-t"; "mangle"; "-F"; LOCAL_MANGLE_OUTPUT];
  r ← execIptables E V4V6 ["-t"; "mangle"; "-F"; LOCAL_MANGLE_EXEMPT];
  let res := Z.lor res r in
  let protect_mark_str := protect_mark_str in
  r ← execIptables E V4V6
        ["-t"; "mangle"; "-A"; LOCAL_MANGLE_OUTPUT; "-m"; "mark"; "--mark";
         protect_mark_str; "-j"; "RETURN"];
  let res := Z.lor res r in
  r ← execIptables E V4V6
        ["-t"; "mangle"; "-A"; LOCAL_MANGLE_OUTPUT; "-m"; "owner";
         "--uid-owner"; "vpn"; "-j"; "RETURN"];
  let res := Z.lor res r in
  mret res.

Definition modifyFromRule (netId : N) (action addr : string) : M Z :=
  let tableIndex_str := tableIndex_str K netId in
  r ← runCmd E [IP_PATH K; getVersion addr; "rule"; action; "from"; addr;
                "table"; tableIndex_str];
  if decide (r ≠ 0) then mret (-1)
  else
    modifyRuleCount K netId action;;
    mret 0.

Definition modifyLocalRoute (netId : N) (action iface addr : string) : M Z :=
  modifyRuleCount K netId action;;
  let tableIndex_str := tableIndex_str K netId in
  runCmd E [IP_PATH K; "route"; action; addr; "dev"; iface; "table";
            tableIndex_str].

Definition setFwmarkRoute (iface dest : string) (prefix : Z) (add : bool)
  : M Z :=
  let netId := getNetworkId E iface in
  let mark_str := tableIndex_str K netId in
  let chain_str := chain_str iface in
  let dest_str := dest_str dest prefix in
  execIptables E (getIptablesTarget dest)
    ["-t"; "mangle"; A_D add; chain_str; "-d"; dest_str; "-j"; "MARK";
     "--set-mark"; mark_str].

Definition addFwmarkRoute (iface dest : string) (prefix : Z) : M Z :=
  setFwmarkRoute iface dest prefix true.

Definition removeFwmarkRoute (iface dest : string) (prefix : Z) : M Z :=
  setFwmarkRoute iface dest prefix false.

Definition setHostExemption (host : string) (add : bool) : M Z :=
  let target := if String.eqb (getVersion host) "-4" then V4 else V6 in
  let protect_mark_str := protect_mark_str in
  ret ← execIptables E target
          ["-t"; "mangle"; A_D add; LOCAL_MANGLE_EXEMPT; "-d"; host; "-j";
           "MARK"; "--set-mark"; protect_mark_str];
  r ← runCmd E [IP_PATH K; getVersion host; "rule"; add_del add; "prio";
                EXEMPT_PRIO; "to"; host; "table"; "main"];
  let ret := Z.lor ret r in
  mret ret.

Definition addHostExemption (host : string) : M Z :=
  setHostExemption host true.

Definition removeHostExemption (host : string) : M Z :=
  setHostExemption host false.

Definition getUidMark (uid : Z) : M unit :=
  λ s, let netId := getNetwork (trace s) uid in
       let mark_str := tableIndex_str K netId in
       sendMsg GetMarkResult mark_str false s.

Definition getProtectMark : M unit :=
  sendMsg GetMarkResult protect_mark_str false.

End Operations.

(** ** Vocabulary of the statements *)

(** What a run appended to the log of external invocations. *)
Definition issued (s s' : Controller) : list Event :=
  drop (length (trace s)) (trace s').

(** The replies a run sent to the client. *)
Definition replied (s s' : Controller) : list (ResponseCode * string * bool) :=
  drop (length (sent s)) (sent s').

(** The counter operations in the words of the specification: [increment]
    inserts a missing id with count 1 and adds 1 otherwise; [decrement]
    subtracts 1 from a present id and removes the entry when the result is
    below 1, and does nothing for a missing id. *)
Definition increment (m : gmap N Z) (netId : N) : gmap N Z :=
  match m !! netId with
  | None => <[netId := 1]> m
  | Some c => <[netId := sint32 (c + 1)]> m
  end.

Definition decrement (m : gmap N Z) (netId : N) : gmap N Z :=
  match m !! netId with
  | None => m
  | Some c =>
      if decide (sint32 (c - 1) < 1) then delete netId m
      else <[netId := sint32 (c - 1)]> m
  end.

(** A sequence of [modifyRuleCount] calls, first call first. *)
Fixpoint modifyRuleCounts (K : Constants) (ops : list (N * string))
  : M unit :=
  match ops with
  | [] => mret tt
  | (netId, action) :: ops =>
      modifyRuleCount K netId action;; modifyRuleCounts K ops
  end.

(** Every stored count is a positive [int]. *)
Definition counts_positive (m : gmap N Z) : Prop :=
  ∀ netId c, m !! netId = Some c → 1 ≤ c ≤ INT_MAX.

(** Every stored count lies between 1 and [n]. *)
Definition counts_within (n : Z) (m : gmap N Z) : Prop :=
  ∀ netId c, m !! netId = Some c → 1 ≤ c ≤ n.

(** [addRoute] when [add] holds, [removeRoute] otherwise. *)
Definition route_call K E (add : bool) (iface dest : string) (prefix : Z)
    (gateway : string) : M Z :=
  if add then addRoute K E iface dest prefix gateway
  else removeRoute K E iface dest prefix gateway.

(** The three mangle-table invocations of [setFwmarkRule], in order. *)
Definition mangle_calls (add : bool) (iface mark_str : string) : list Call :=
  if add then
    [Iptables V4V6 ["-t"; "mangle"; "-N"; chain_str iface];
     Iptables V4V6 ["-t"; "mangle"; "-I"; LOCAL_MANGLE_OUTPUT; "3"; "-m";
                    "mark"; "--mark"; mark_str; "-g"; chain_str iface];
     Iptables V4V6 ["-t"; "mangle"; "-A"; chain_str iface; "-j"; "MARK";
                    "--set-mark"; "0"]]
  else
    [Iptables V4V6 ["-t"; "mangle"; "-D"; LOCAL_MANGLE_OUTPUT; "-m"; "mark";
                    "--mark"; mark_str; "-g"; chain_str iface];
     Iptables V4V6 ["-t"; "mangle"; "-F"; chain_str iface];
     Iptables V4V6 ["-t"; "mangle"; "-X"; chain_str iface]].

(** The sub-steps of [setFwmarkRule] in source order: the nine that do not
    depend on an earlier status, then the reject rule. *)
Definition fwmark_steps K (add : bool) (iface mark_str : string) : list Call :=
  [Exec (route_cmd K iface add mark_str);
   Exec (fwmark_cmd K add mark_str);
   Exec (route6_cmd K iface add mark_str);
   Exec (fwmark6_cmd K add mark_str)]
  ++ mangle_calls add iface mark_str
  ++ [Iptables V4 (nat_args iface add mark_str);
      Iptables V6 (nat_args iface add mark_str);
      Iptables V6 (reject_args add mark_str)].

(** The state after a run differs from the state before it in the log
    of external invocations only. *)
Definition only_logged (s s' : Controller) (evs : list Event) : Prop :=
  mNetIdRuleCount s' = mNetIdRuleCount s ∧ errno s' = errno s
  ∧ sent s' = sent s ∧ trace s' = trace s ++ evs.

(** The runs of [setFwmarkRule] past its guard, over the sub-steps [steps]:
    the invocations made, with their statuses, and the value returned.  The
    run ends after the second, the fourth or the eighth sub-step when that
    one fails; the tenth is made only when the ninth fails. *)
Inductive fwmark_run (steps : list Call) : list Event → Z → Prop :=
| run_stops_at_rule r1 r2 :
    r2 ≠ 0 →
    fwmark_run steps (zip (take 2 steps) [r1; r2]) r2
| run_stops_at_rule6 r1 r3 r4 :
    r4 ≠ 0 →
    fwmark_run steps (zip (take 4 steps) [r1; 0; r3; r4]) r4
| run_stops_at_nat r1 r3 r5 r6 r7 r8 :
    r8 ≠ 0 →
    fwmark_run steps (zip (take 8 steps) [r1; 0; r3; 0; r5; r6; r7; r8]) r8
| run_rejects r1 r3 r5 r6 r7 r9 r10 :
    r9 ≠ 0 →
    fwmark_run steps (zip steps [r1; 0; r3; 0; r5; r6; r7; 0; r9; r10]) r10
| run_completes r1 r3 r5 r6 r7 :
    fwmark_run steps (zip (take 9 steps) [r1; 0; r3; 0; r5; r6; r7; 0; 0]) 0.

(** The owner-match rule of [setUidRule]. *)
Definition uid_rule_args (add : bool) (iface : string) (uid_start uid_end : Z)
  : list string :=
  ["-t"; "mangle"; A_D add; LOCAL_MANGLE_OUTPUT; "-m"; "owner";
   "--uid-owner"; snprintf 24 (pretty uid_start +:+ "-" +:+ pretty uid_end);
   "-g"; chain_str iface].

(** [ADD] when [add] holds, [DEL] otherwise. *)
Definition action_of (K : Constants) (add : bool) : string :=
  if add then ADD K else DEL K.

(** Every external command succeeds. *)
Definition all_succeed (E : Env) : Prop :=
  (∀ t argv, android_fork_execvp E t argv = 0)
  ∧ (∀ t target args, iptables_status E t target args = 0).

(** The four invocations of [setupIptablesHooks], in order. *)
Definition hooks_calls (PROTECT_MARK : Z) : list Call :=
  [Iptables V4V6 ["-t"; "mangle"; "-F"; LOCAL_MANGLE_OUTPUT];
   Iptables V4V6 ["-t"; "mangle"; "-F"; LOCAL_MANGLE_EXEMPT];
   Iptables V4V6 ["-t"; "mangle"; "-A"; LOCAL_MANGLE_OUTPUT; "-m"; "mark";
                  "--mark"; protect_mark_str PROTECT_MARK; "-j"; "RETURN"];
   Iptables V4V6 ["-t"; "mangle"; "-A"; LOCAL_MANGLE_OUTPUT; "-m"; "owner";
                  "--uid-owner"; "vpn"; "-j"; "RETURN"]].

(** The two invocations of [setHostExemption], in order. *)
Definition exemption_calls (K : Constants) (PROTECT_MARK : Z)
    (EXEMPT_PRIO host : string) (add : bool) : list Call :=
  [Iptables (getIptablesTarget host)
     ["-t"; "mangle"; A_D add; LOCAL_MANGLE_EXEMPT; "-d"; host; "-j"; "MARK";
      "--set-mark"; protect_mark_str PROTECT_MARK];
   Exec [IP_PATH K; getVersion host; "rule"; add_del add; "prio";
         EXEMPT_PRIO; "to"; host; "table"; "main"]].

(** ** Concrete instances *)

Definition netd_constants : Constants :=
  {| IP_PATH := "/system/bin/ip"; ADD := "add"; DEL := "del";
     BASE_TABLE_NUMBER := 1000; RULE_PRIO := "13000" |}.

(** An environment in which "tun0" is network 5 and a command fails, with
    status 1, exactly when the given predicate selects it. *)
Definition scripted_env (fails : Call → bool) (registry_ok : bool) : Env :=
  {| getNetworkId := λ iface, if String.eqb iface "tun0" then 5%N else 0%N;
     android_fork_execvp := λ _ argv, Z.b2z (fails (Exec argv));
     iptables_status := λ _ target args, Z.b2z (fails (Iptables target args));
     setNetworkForUidRange := λ _ _ _ _ _, registry_ok |}.

Definition fresh : Controller :=
  {| mNetIdRuleCount := ∅; errno := 0; trace := []; sent := [] |}.

(** A controller on which one manual route of network 5 is counted. *)
Definition with_route : Controller :=
  {| mNetIdRuleCount := {[ 5%N := 1 ]}; errno := 0; trace := []; sent := [] |}.

Definition nat6_fails (c : Call) : bool :=
  match c with
  | Iptables V6 args => bool_decide (args !! 1%nat = Some "nat")
  | _ => false
  end.

Definition rule_fails (c : Call) : bool :=
  match c with
  | Exec argv => bool_decide (argv !! 1%nat = Some "rule")
  | _ => false
  end.

Definition route_fails (c : Call) : bool :=
  match c with
  | Exec argv => bool_decide (argv !! 1%nat = Some "route")
  | _ => false
  end.

(** ** Tactics *)

(** Abstract the status of the oldest invocation that is still spelled out
    in the goal. *)
Ltac name_status r :=
  match goal with
  | |- context [android_fork_execvp ?E ?t ?a] =>
      lazymatch t with
      | context [android_fork_execvp] => fail
      | context [iptables_status] => fail
      | _ => generalize (android_fork_execvp E t a); intros r
      end
  | |- context [iptables_status ?E ?t ?tg ?a] =>
      lazymatch t with
      | context [android_fork_execvp] => fail
      | context [iptables_status] => fail
      | _ => generalize (iptables_status E t tg a); intros r
      end
  end.

(** Split a membership in an explicit list of events into its cases. *)
Ltac split_elem_of :=
  repeat match goal with
    | H : _ ∈ _ :: _ |- _ => apply elem_of_cons in H as [H|H]
    | H : _ ∈ [] |- _ => by apply elem_of_nil in H
    end.

(** ** Sample runs *)

(** Enabling fwmark routing on "tun0" (network 5, base table 1000) when
    every command succeeds: nine invocations, all with mark 1005. *)
Example addFwmarkRule_tun0 :
  addFwmarkRule netd_constants (scripted_env (λ _, false) true) "tun0" fresh
  = (0,
     {| mNetIdRuleCount := ∅; errno := 0; sent := [];
        trace :=
          [(Exec ["/system/bin/ip"; "route"; "add"; "default"; "dev"; "tun0";
                  "table"; "1005"], 0);
           (Exec ["/system/bin/ip"; "rule"; "add"; "prio"; "13000"; "fwmark";
                  "1005"; "table"; "1005"], 0);
           (Exec ["/system/bin/ip"; "-6"; "route"; "add"; "default"; "dev";
                  "tun0"; "table"; "1005"], 0);
           (Exec ["/system/bin/ip"; "-6"; "rule"; "add"; "prio"; "13000";
                  "fwmark"; "1005"; "table"; "1005"], 0);
           (Iptables V4V6 ["-t"; "mangle"; "-N"; "st_mangle_tun0_OUTPUT"], 0);
           (Iptables V4V6
              ["-t"; "mangle"; "-I"; "st_mangle_OUTPUT"; "3"; "-m"; "mark";
               "--mark"; "1005"; "-g"; "st_mangle_tun0_OUTPUT"], 0);
           (Iptables V4V6
              ["-t"; "mangle"; "-A"; "st_mangle_tun0_OUTPUT"; "-j"; "MARK";
               "--set-mark"; "0"], 0);
           (Iptables V4
              ["-t"; "nat"; "-A"; "st_nat_POSTROUTING"; "-o"; "tun0"; "-m";
               "mark"; "--mark"; "1005"; "-j"; "MASQUERADE"], 0);
           (Iptables V6
              ["-t"; "nat"; "-A"; "st_nat_POSTROUTING"; "-o"; "tun0"; "-m";
               "mark"; "--mark"; "1005"; "-j"; "MASQUERADE"], 0)] |}).
Proof. by vm_compute. Qed.

(** A refused UID range: one registry request, [EINVAL], no rule. *)
Example addUidRule_refused :
  addUidRule (scripted_env (λ _, false) false) "tun0" 10000 10999 fresh
  = (-1,
     {| mNetIdRuleCount := ∅; errno := EINVAL; sent := [];
        trace := [(UidRange 10000 10999 5 false, 0)] |}).
Proof. by vm_compute. Qed.

(** Two routes added and one removed on network 5 leave a count of 1. *)
Example route_counts :
  let E := scripted_env (λ _, false) true in
  mNetIdRuleCount
    ((addRoute netd_constants E "tun0" "10.1.0.0" 16 "10.0.0.1";;
      addRoute netd_constants E "tun0" "10.2.0.0" 16 "::";;
      removeRoute netd_constants E "tun0" "10.1.0.0" 16 "10.0.0.1") fresh).2
  = {[ 5%N := 1 ]}.
Proof. by vm_compute. Qed.

(** ** The reference counter *)

Lemma sint32_id z : - 2 ^ 31 ≤ z ≤ INT_MAX → sint32 z = z.
Proof.
  unfold sint32, INT_MAX. intros Hz.
  rewrite Z.mod_small; lia.
Qed.

Lemma sint32_pred_succ c : - 2 ^ 31 ≤ c ≤ INT_MAX → sint32 (sint32 (c + 1) - 1) = c.
Proof.
  unfold INT_MAX. intros Hc.
  destruct (decide (c = 2 ^ 31 - 1)) as [->|Hne].
  - reflexivity.
  - rewrite (sint32_id (c + 1)) by (unfold INT_MAX; lia).
    replace (c + 1 - 1) with c by lia. apply sint32_id. unfold INT_MAX. lia.
Qed.

Lemma modifyRuleCount_frame K netId action s :
  let s' := (modifyRuleCount K netId action s).2 in
  errno s' = errno s ∧ trace s' = trace s ∧ sent s' = sent s.
Proof.
  unfold modifyRuleCount, mbind, M_bind, get_map, set_map, mret, M_ret.
  simpl. repeat case_match; simpl; auto.
Qed.

(** [modifyRuleCount] with [ADD] is the specification's [increment]. *)
Lemma modifyRuleCount_ADD K netId s :
  mNetIdRuleCount (modifyRuleCount K netId (ADD K) s).2
  = increment (mNetIdRuleCount s) netId.
Proof.
  unfold modifyRuleCount, mbind, M_bind, get_map, set_map, increment,
    map_count, map_at.
  simpl. rewrite String.eqb_refl.
  destruct (mNetIdRuleCount s !! netId) as [c|] eqn:Hc; simpl.
  - by rewrite Hc.
  - rewrite lookup_insert_eq. simpl. by rewrite insert_insert_eq.
Qed.

(** [modifyRuleCount] with any other action is [decrement]. *)
Lemma modifyRuleCount_other K netId action s :
  action ≠ ADD K →
  mNetIdRuleCount (modifyRuleCount K netId action s).2
  = decrement (mNetIdRuleCount s) netId.
Proof.
  intros Hne.
  unfold modifyRuleCount, mbind, M_bind, get_map, set_map, decrement,
    map_count, map_at, map_erase, mret, M_ret.
  simpl. destruct (String.eqb_spec action (ADD K)) as [|_]; [done|].
  destruct (mNetIdRuleCount s !! netId) as [c|] eqn:Hc; simpl.
  - rewrite lookup_insert_eq. simpl.
    case_decide; simpl; [|done]. by rewrite delete_insert_eq.
  - done.
Qed.

Lemma increment_within n m netId :
  0 ≤ n < INT_MAX → counts_within n m →
  counts_within (n + 1) (increment m netId).
Proof.
  intros Hn Hm k c. unfold increment.
  destruct (m !! netId) as [c0|] eqn:Hc0.
  - destruct (decide (netId = k)) as [->|Hk].
    + rewrite lookup_insert_eq. intros [= <-].
      specialize (Hm _ _ Hc0). rewrite sint32_id; lia.
    + rewrite lookup_insert_ne by done. intros Hc.
      specialize (Hm _ _ Hc). lia.
  - destruct (decide (netId = k)) as [->|Hk].
    + rewrite lookup_insert_eq. intros [= <-]. lia.
    + rewrite lookup_insert_ne by done. intros Hc.
      specialize (Hm _ _ Hc). lia.
Qed.

Lemma decrement_within n m netId :
  0 ≤ n ≤ INT_MAX → counts_within n m → counts_within n (decrement m netId).
Proof.
  intros Hn Hm k c. unfold decrement.
  destruct (m !! netId) as [c0|] eqn:Hc0; [|apply Hm].
  pose proof (Hm _ _ Hc0) as Hc0'.
  rewrite sint32_id by (unfold INT_MAX in *; lia).
  case_decide.
  - destruct (decide (netId = k)) as [->|Hk].
    + by rewrite lookup_delete_eq.
    + rewrite lookup_delete_ne by done. apply Hm.
  - destruct (decide (netId = k)) as [->|Hk].
    + rewrite lookup_insert_eq. intros [= <-]. lia.
    + rewrite lookup_insert_ne by done. apply Hm.
Qed.

Lemma counts_within_mono n n' m :
  n ≤ n' → counts_within n m → counts_within n' m.
Proof. intros Hn Hm k c Hc. specialize (Hm _ _ Hc). lia. Qed.

Lemma modifyRuleCount_within K n netId action s :
  0 ≤ n < INT_MAX → counts_within n (mNetIdRuleCount s) →
  counts_within (n + 1) (mNetIdRuleCount (modifyRuleCount K netId action s).2).
Proof.
  intros Hn Hm. destruct (decide (action = ADD K)) as [->|Hne].
  - rewrite modifyRuleCount_ADD. by apply increment_within.
  - rewrite modifyRuleCount_other by done.
    apply (counts_within_mono n); [lia|]. apply decrement_within; [lia|done].
Qed.

Lemma modifyRuleCounts_within K ops : ∀ n s,
  0 ≤ n → n + Z.of_nat (length ops) ≤ INT_MAX →
  counts_within n (mNetIdRuleCount s) →
  counts_within (n + Z.of_nat (length ops))
    (mNetIdRuleCount (modifyRuleCounts K ops s).2).
Proof.
  induction ops as [|[netId action] ops IH]; intros n s Hn Hlen Hm.
  - simpl. by rewrite Z.add_0_r.
  - cbn [modifyRuleCounts length] in *.
    unfold mbind, M_bind.
    destruct (modifyRuleCount K netId action s) as [[] s1] eqn:Hs1.
    replace (n + Z.of_nat (S (length ops)))
      with ((n + 1) + Z.of_nat (length ops)) by lia.
    apply IH; [lia|lia|].
    replace s1 with (modifyRuleCount K netId action s).2 by by rewrite Hs1.
    apply modifyRuleCount_within; [lia|done].
Qed.

(** C3, amended.  Starting from the empty map, after any sequence of at
    most [INT_MAX] [modifyRuleCount] calls (so that no [int] count
    overflows) a network id is in the map if and only if its count is at
    least 1, and no stored count is 0 or negative. *)
Theorem rule_count_present_iff_positive K ops s :
  mNetIdRuleCount s = ∅ →
  Z.of_nat (length ops) ≤ INT_MAX →
  let s' := (modifyRuleCounts K ops s).2 in
  ∀ netId,
    (map_count (mNetIdRuleCount s') netId > 0 ↔ 1 ≤ refcount s' netId)
    ∧ (∀ c, mNetIdRuleCount s' !! netId = Some c → 0 < c).
Proof.
  intros Hempty Hlen s' netId.
  assert (Hin : counts_within (0 + Z.of_nat (length ops)) (mNetIdRuleCount s')).
  { apply modifyRuleCounts_within; [lia|lia|].
    rewrite Hempty. intros k c. by rewrite lookup_empty. }
  unfold refcount, map_count, map_at. split.
  - destruct (mNetIdRuleCount s' !! netId) as [c|] eqn:Hc; simpl.
    + specialize (Hin _ _ Hc). lia.
    + lia.
  - intros c Hc. specialize (Hin _ _ Hc). lia.
Qed.

Lemma rule_count_present_iff_positive_witness :
  let s' := (modifyRuleCounts netd_constants
               [(5%N, "add"); (7%N, "add"); (5%N, "add"); (7%N, "del");
                (9%N, "del")] fresh).2 in
  mNetIdRuleCount s' = {[ 5%N := 2 ]}
  ∧ ∀ netId,
      (map_count (mNetIdRuleCount s') netId > 0 ↔ 1 ≤ refcount s' netId)
      ∧ (∀ c, mNetIdRuleCount s' !! netId = Some c → 0 < c).
Proof.
  split; [by vm_compute|].
  apply (rule_count_present_iff_positive netd_constants
           [(5%N, "add"); (7%N, "add"); (5%N, "add"); (7%N, "del");
            (9%N, "del")] fresh).
  - reflexivity.
  - by vm_compute.
Defined.

(** C4.  On a map whose counts are positive [int]s, [modifyRuleCount] with
    [ADD] followed by [modifyRuleCount] with [DEL] for the same network id
    gives back the controller it started from; and [modifyRuleCount] with
    [DEL] for an id that is not in the map changes nothing. *)
Theorem increment_decrement_roundtrip K s netId :
  ADD K ≠ DEL K →
  counts_positive (mNetIdRuleCount s) →
  (modifyRuleCount K netId (ADD K);; modifyRuleCount K netId (DEL K)) s
    = (tt, s)
  ∧ (map_count (mNetIdRuleCount s) netId = 0 →
     modifyRuleCount K netId (DEL K) s = (tt, s)).
Proof.
  intros Hne Hpos. destruct s as [m e t r]. simpl in Hpos. split.
  - unfold mbind, M_bind.
    destruct (modifyRuleCount K netId (ADD K) _) as [[] s1] eqn:Hs1.
    pose proof (modifyRuleCount_ADD K netId (Build_Controller m e t r)) as Hm1.
    pose proof (modifyRuleCount_frame K netId (ADD K)
                  (Build_Controller m e t r)) as (He1 & Ht1 & Hr1).
    rewrite Hs1 in Hm1, He1, Ht1, Hr1. simpl in *.
    destruct (modifyRuleCount K netId (DEL K) s1) as [[] s2] eqn:Hs2.
    pose proof (modifyRuleCount_other K netId (DEL K) s1 (not_eq_sym Hne))
      as Hm2.
    pose proof (modifyRuleCount_frame K netId (DEL K) s1) as (He2 & Ht2 & Hr2).
    rewrite Hs2 in Hm2, He2, Ht2, Hr2. simpl in *.
    destruct s2 as [m2 e2 t2 r2]. simpl in *.
    f_equal. f_equal; [|congruence..].
    rewrite Hm2, Hm1. unfold increment, decrement.
    destruct (m !! netId) as [c|] eqn:Hc.
    + rewrite lookup_insert_eq.
      specialize (Hpos _ _ Hc).
      rewrite sint32_pred_succ by (unfold INT_MAX in *; lia).
      rewrite decide_False by lia.
      rewrite insert_insert_eq. by apply insert_id.
    + rewrite lookup_insert_eq.
      rewrite decide_True by (by vm_compute).
      rewrite delete_insert_eq. by apply delete_id.
  - unfold map_count. simpl. intros Habs.
    destruct (m !! netId) as [c|] eqn:Hc; [lia|].
    unfold modifyRuleCount, mbind, M_bind, get_map, map_count. simpl.
    destruct (String.eqb_spec (DEL K) (ADD K)) as [Heq|_]; [congruence|].
    by rewrite Hc.
Qed.

Lemma increment_decrement_roundtrip_witness :
  ADD netd_constants ≠ DEL netd_constants
  ∧ counts_positive (mNetIdRuleCount with_route)
  ∧ (modifyRuleCount netd_constants 5 (ADD netd_constants);;
     modifyRuleCount netd_constants 5 (DEL netd_constants)) with_route
    = (tt, with_route)
  ∧ (map_count (mNetIdRuleCount with_route) 7 = 0 →
     modifyRuleCount netd_constants 7 (DEL netd_constants) with_route
     = (tt, with_route)).
Proof.
  assert (H1 : ADD netd_constants ≠ DEL netd_constants) by done.
  assert (H2 : counts_positive (mNetIdRuleCount with_route)).
  { intros k c. simpl. intros [<- <-]%lookup_singleton_Some.
    unfold INT_MAX. lia. }
  split; [exact H1|]. split; [exact H2|].
  split.
  - apply (increment_decrement_roundtrip netd_constants with_route 5 H1 H2).
  - apply (increment_decrement_roundtrip netd_constants with_route 7 H1 H2).
Defined.

(** ** Routes *)

Lemma issued_app s s' l : trace s' = trace s ++ l → issued s s' = l.
Proof. unfold issued. intros ->. by rewrite drop_app_length. Qed.

Lemma replied_app s s' l : sent s' = sent s ++ l → replied s s' = l.
Proof. unfold replied. intros ->. by rewrite drop_app_length. Qed.

(** One call of [modifyRoute], read off its definition: the command it
    runs, and what follows from the command's status. *)
Lemma modifyRoute_run K E action iface dest prefix gateway netId s :
  let argv :=
    if String.eqb "::" gateway
    then cmd_dev K action (dest_str dest prefix) iface (tableIndex_str K netId)
    else cmd_via K action (dest_str dest prefix) gateway iface
           (tableIndex_str K netId) in
  let status := android_fork_execvp E (trace s) argv in
  let r := (modifyRoute K E action iface dest prefix gateway netId s).1 in
  let s' := (modifyRoute K E action iface dest prefix gateway netId s).2 in
  trace s' = trace s ++ [(Exec argv, status)]
  ∧ (status ≠ 0 →
     r = -1 ∧ errno s' = ENODEV
     ∧ mNetIdRuleCount s' = mNetIdRuleCount s
     ∧ sent s' = sent s ++ [(OperationFailed, "ip route modification failed",
                             true)])
  ∧ (status = 0 →
     r = 0
     ∧ mNetIdRuleCount s'
       = mNetIdRuleCount (modifyRuleCount K netId action s).2
     ∧ sent s' = sent s ++ [(CommandOkay, "Route modified", false)]).
Proof.
  intros argv status r s'. subst r s'.
  unfold modifyRoute, mbind, M_bind.
  fold argv.
  replace (if String.eqb "::" gateway
           then runCmd E (cmd_dev K action (dest_str dest prefix) iface
                            (tableIndex_str K netId))
           else runCmd E (cmd_via K action (dest_str dest prefix) gateway iface
                            (tableIndex_str K netId)))
    with (runCmd E argv) by (subst argv; by destruct (String.eqb "::" gateway)).
  unfold runCmd. cbn [log snd]. subst status.
  generalize (android_fork_execvp E (trace s) argv). intros status.
  destruct (decide (status ≠ 0)) as [Hst|Hst].
  - cbn. split; [done|]. split; [done|]. intros ->. done.
  - assert (status = 0) as Hz by lia.
    set (s1 := {| mNetIdRuleCount := mNetIdRuleCount s; errno := errno s;
                  trace := trace s ++ [(Exec argv, status)];
                  sent := sent s |}).
    pose proof (modifyRuleCount_frame K netId action s1) as (He & Ht & Hr).
    destruct (modifyRuleCount K netId action s1) as [[] s2] eqn:Hs2.
    cbn in He, Ht, Hr |- *.
    split; [done|]. split; [done|]. intros _.
    split; [done|]. split; [|by rewrite Hr].
    replace s2 with (modifyRuleCount K netId action s1).2 by by rewrite Hs2.
    unfold modifyRuleCount, mbind, M_bind, get_map, set_map, mret, M_ret.
    cbn. repeat case_match; done.
Qed.

(** C5.  A call of [addRoute] or [removeRoute] runs one route command and
    goes by the status the environment gives for it.  If the command fails
    the call returns -1, reports [OperationFailed] to the client and leaves
    the reference-count map as it was; if it succeeds the call returns 0,
    reports [CommandOkay], and the map has been incremented (add) or
    decremented (remove) for the interface's network id.  A failure report
    and a change of the map never come from the same call. *)
Theorem route_failure_excludes_count_change K E (add : bool)
    iface dest prefix gateway s :
  ADD K ≠ DEL K →
  let netId := getNetworkId E iface in
  let argv :=
    if String.eqb "::" gateway
    then cmd_dev K (action_of K add) (dest_str dest prefix) iface
           (tableIndex_str K netId)
    else cmd_via K (action_of K add) (dest_str dest prefix) gateway iface
           (tableIndex_str K netId) in
  let status := android_fork_execvp E (trace s) argv in
  let r := (route_call K E add iface dest prefix gateway s).1 in
  let s' := (route_call K E add iface dest prefix gateway s).2 in
  issued s s' = [(Exec argv, status)]
  ∧ ((status ≠ 0 ∧ r = -1
      ∧ replied s s' = [(OperationFailed, "ip route modification failed",
                         true)]
      ∧ mNetIdRuleCount s' = mNetIdRuleCount s)
     ∨ (status = 0 ∧ r = 0
        ∧ replied s s' = [(CommandOkay, "Route modified", false)]
        ∧ mNetIdRuleCount s'
          = (if add then increment else decrement)
              (mNetIdRuleCount s) netId)).
Proof.
  intros Hne netId argv status r s'. subst r s'. unfold route_call.
  replace (if add then addRoute K E iface dest prefix gateway
           else removeRoute K E iface dest prefix gateway)
    with (modifyRoute K E (action_of K add) iface dest prefix gateway netId)
    by (by destruct add).
  pose proof (modifyRoute_run K E (action_of K add) iface dest prefix gateway
                netId s) as Hrun.
  cbv zeta in Hrun. fold argv in Hrun. fold status in Hrun.
  destruct Hrun as (Htrace & Hfail & Hok).
  split; [by apply issued_app|].
  destruct (decide (status = 0)) as [Hst|Hst].
  - right. destruct (Hok Hst) as (Hr & Hm & Hs).
    split; [done|]. split; [done|]. split; [by apply replied_app|].
    rewrite Hm. unfold action_of. destruct add.
    + apply modifyRuleCount_ADD.
    + apply modifyRuleCount_other. congruence.
  - left. destruct (Hfail Hst) as (Hr & _ & Hm & Hs).
    split; [done|]. split; [done|]. split; [by apply replied_app|done].
Qed.

Lemma route_failure_excludes_count_change_witness :
  let ok := scripted_env (λ _, false) true in
  let ko := scripted_env (λ _, true) true in
  let argv := ["/system/bin/ip"; "route"; "add"; "10.1.0.0/16"; "via";
               "10.0.0.1"; "dev"; "tun0"; "table"; "1005"] in
  let done_ := route_call netd_constants ok true "tun0" "10.1.0.0" 16
                 "10.0.0.1" fresh in
  let failed := route_call netd_constants ko true "tun0" "10.1.0.0" 16
                  "10.0.0.1" fresh in
  (issued fresh done_.2 = [(Exec argv, 0)] ∧ done_.1 = 0
   ∧ replied fresh done_.2 = [(CommandOkay, "Route modified", false)]
   ∧ mNetIdRuleCount done_.2 = increment (mNetIdRuleCount fresh) 5)
  ∧ (issued fresh failed.2 = [(Exec argv, 1)] ∧ failed.1 = -1
     ∧ replied fresh failed.2
       = [(OperationFailed, "ip route modification failed", true)]
     ∧ mNetIdRuleCount failed.2 = mNetIdRuleCount fresh).
Proof.
  intros ok ko argv done_ failed.
  assert (Hne : ADD netd_constants ≠ DEL netd_constants) by discriminate.
  split.
  - destruct (route_failure_excludes_count_change netd_constants ok true
                "tun0" "10.1.0.0" 16 "10.0.0.1" fresh Hne)
      as (Hiss & [(Hst & _)|(_ & Hr & Hrep & Hm)]).
    + exfalso. apply Hst. reflexivity.
    + split; [exact Hiss|]. split; [exact Hr|]. split; [exact Hrep|exact Hm].
  - destruct (route_failure_excludes_count_change netd_constants ko true
                "tun0" "10.1.0.0" 16 "10.0.0.1" fresh Hne)
      as (Hiss & [(_ & Hr & Hrep & Hm)|(Hst & _)]).
    + split; [exact Hiss|]. split; [exact Hr|]. split; [exact Hrep|exact Hm].
    + discriminate Hst.
Defined.

(** C6, as stated, fails for the IPv4 all-zero gateway: [addRoute] with
    gateway "0.0.0.0" runs the command with the "via 0.0.0.0" clause, not
    the device-only command. *)
Lemma route_ipv4_any_gateway_keeps_via :
  let E := scripted_env (λ _, false) true in
  issued fresh (addRoute netd_constants E "tun0" "10.1.0.0" 16 "0.0.0.0"
                  fresh).2
  = [(Exec ["/system/bin/ip"; "route"; "add"; "10.1.0.0/16"; "via";
            "0.0.0.0"; "dev"; "tun0"; "table"; "1005"], 0)]
  ∧ issued fresh (addRoute netd_constants E "tun0" "10.1.0.0" 16 "0.0.0.0"
                    fresh).2
    ≠ [(Exec (cmd_dev netd_constants "add" "10.1.0.0/16" "tun0" "1005"), 0)].
Proof. split; [by vm_compute|]. vm_compute. discriminate. Qed.

(** C6, amended.  [modifyRoute] (so [addRoute] and [removeRoute]) runs the
    device-only route command exactly when the gateway is the string "::";
    for every other gateway, "0.0.0.0" included, it runs the command with
    "via <gateway>". *)
Theorem route_via_unless_ipv6_any K E action iface dest prefix gateway netId s :
  let s' := (modifyRoute K E action iface dest prefix gateway netId s).2 in
  ∃ status,
    (gateway = "::"
     ∧ issued s s'
       = [(Exec [IP_PATH K; "route"; action; dest_str dest prefix; "dev";
                 iface; "table"; tableIndex_str K netId], status)])
    ∨ (gateway ≠ "::"
       ∧ issued s s'
         = [(Exec [IP_PATH K; "route"; action; dest_str dest prefix; "via";
                   gateway; "dev"; iface; "table"; tableIndex_str K netId],
             status)]).
Proof.
  intros s'. subst s'.
  pose proof (modifyRoute_run K E action iface dest prefix gateway netId s)
    as Hrun.
  cbv zeta in Hrun. destruct Hrun as (Htrace & _).
  apply issued_app in Htrace.
  destruct (String.eqb_spec "::" gateway) as [<-|Hne]; eexists.
  - left. split; [done|]. exact Htrace.
  - right. split; [congruence|]. exact Htrace.
Qed.

(** ** Fwmark rules *)

Lemma runCmd_eq E argv s :
  runCmd E argv s
  = (android_fork_execvp E (trace s) argv,
     {| mNetIdRuleCount := mNetIdRuleCount s; errno := errno s;
        trace := trace s ++ [(Exec argv, android_fork_execvp E (trace s) argv)];
        sent := sent s |}).
Proof. reflexivity. Qed.

Lemma execIptables_eq E target args s :
  execIptables E target args s
  = (iptables_status E (trace s) target args,
     {| mNetIdRuleCount := mNetIdRuleCount s; errno := errno s;
        trace := trace s ++ [(Iptables target args,
                              iptables_status E (trace s) target args)];
        sent := sent s |}).
Proof. reflexivity. Qed.

(** Run the invocations that the goal applies to an explicit state. *)
Ltac run_calls :=
  repeat (progress (rewrite ?runCmd_eq, ?execIptables_eq;
                    cbn [trace mNetIdRuleCount errno sent mret M_ret])).

Lemma setFwmarkRule_run K E iface add s :
  map_count (mNetIdRuleCount s) (getNetworkId E iface) = 0 →
  let ret := (setFwmarkRule K E iface add s).1 in
  let s' := (setFwmarkRule K E iface add s).2 in
  let steps :=
    fwmark_steps K add iface (tableIndex_str K (getNetworkId E iface)) in
  ∃ evs, only_logged s s' evs ∧ fwmark_run steps evs ret.
Proof.
  intros Hclean ret s' steps. subst ret s'.
  unfold setFwmarkRule, mbind, M_bind, get_map. cbn [mNetIdRuleCount].
  rewrite Hclean. rewrite decide_False by lia.
  set (mark := tableIndex_str K (getNetworkId E iface)) in *.
  run_calls. name_status r1. name_status r2.
  case_decide as H2.
  { exists (zip (take 2 steps) [r1; r2]). split; [|by constructor].
    unfold only_logged. cbn. by rewrite <- !app_assoc. }
  assert (r2 = 0) as -> by lia. clear H2.
  run_calls. name_status r3. name_status r4.
  case_decide as H4.
  { exists (zip (take 4 steps) [r1; 0; r3; r4]). split; [|by constructor].
    unfold only_logged. cbn. by rewrite <- !app_assoc. }
  assert (r4 = 0) as -> by lia. clear H4.
  destruct add;
    run_calls;
    name_status r5; name_status r6; name_status r7; name_status r8;
    (case_decide as H8;
     [ exists (zip (take 8 steps)
                 [r1; 0; r3; 0; r5; r6; r7; r8]);
       split; [|by constructor];
       unfold only_logged; cbn; by rewrite <- !app_assoc |]);
    (assert (r8 = 0) as -> by lia); clear H8;
    run_calls; name_status r9;
    (case_decide as H9;
     [ run_calls; name_status r10;
       exists (zip steps
                 [r1; 0; r3; 0; r5; r6; r7; 0; r9; r10]);
       split; [|by constructor];
       unfold only_logged; cbn; by rewrite <- !app_assoc |]);
    (assert (r9 = 0) as -> by lia); clear H9;
    (exists (zip (take 9 steps)
               [r1; 0; r3; 0; r5; r6; r7; 0; 0]));
    (split; [|by constructor]);
    unfold only_logged; cbn; by rewrite <- !app_assoc.
Qed.

Lemma setFwmarkRule_busy K E iface add s :
  map_count (mNetIdRuleCount s) (getNetworkId E iface) > 0 →
  setFwmarkRule K E iface add s
  = (-1, {| mNetIdRuleCount := mNetIdRuleCount s; errno := EBUSY;
            trace := trace s; sent := sent s |}).
Proof.
  intros Hbusy. unfold setFwmarkRule, mbind, M_bind, get_map.
  cbn [mNetIdRuleCount]. by rewrite decide_True by done.
Qed.

Lemma refcount_positive_counted s netId :
  0 < refcount s netId → map_count (mNetIdRuleCount s) netId > 0.
Proof.
  unfold refcount, map_at, map_count.
  destruct (mNetIdRuleCount s !! netId); simpl; lia.
Qed.

Lemma issued_nil s s' : trace s' = trace s → issued s s' = [].
Proof. unfold issued. intros ->. by rewrite drop_all. Qed.

(** C2.  [addFwmarkRule] for an interface whose network id has a reference
    count above zero runs no external command, leaves the map, the log and
    the client untouched, sets [errno] to [EBUSY] and returns -1. *)
Theorem enable_on_counted_network_is_busy K E iface s :
  0 < refcount s (getNetworkId E iface) →
  let ret := (addFwmarkRule K E iface s).1 in
  let s' := (addFwmarkRule K E iface s).2 in
  ret = -1 ∧ errno s' = EBUSY ∧ issued s s' = []
  ∧ mNetIdRuleCount s' = mNetIdRuleCount s
  ∧ trace s' = trace s ∧ sent s' = sent s.
Proof.
  intros Hcount%refcount_positive_counted. unfold addFwmarkRule.
  rewrite setFwmarkRule_busy by done. cbn.
  split_and!; try done. by apply issued_nil.
Qed.

Lemma enable_on_counted_network_is_busy_witness :
  let E := scripted_env (λ _, false) true in
  let ret := (addFwmarkRule netd_constants E "tun0" with_route).1 in
  let s' := (addFwmarkRule netd_constants E "tun0" with_route).2 in
  ret = -1 ∧ errno s' = EBUSY ∧ issued with_route s' = []
  ∧ mNetIdRuleCount s' = mNetIdRuleCount with_route
  ∧ trace s' = trace with_route ∧ sent s' = sent with_route.
Proof.
  intros E.
  apply (enable_on_counted_network_is_busy netd_constants E "tun0" with_route).
  by vm_compute.
Defined.

(** C9.  [removeFwmarkRule] meets the same guard: for an interface whose
    network id has a reference count above zero it runs no external
    command, sets [errno] to [EBUSY] and returns -1, exactly as
    [addFwmarkRule] does from the same state. *)
Theorem disable_on_counted_network_is_busy K E iface s :
  0 < refcount s (getNetworkId E iface) →
  let ret := (removeFwmarkRule K E iface s).1 in
  let s' := (removeFwmarkRule K E iface s).2 in
  ret = -1 ∧ errno s' = EBUSY ∧ issued s s' = []
  ∧ mNetIdRuleCount s' = mNetIdRuleCount s
  ∧ trace s' = trace s ∧ sent s' = sent s
  ∧ removeFwmarkRule K E iface s = addFwmarkRule K E iface s.
Proof.
  intros Hcount%refcount_positive_counted.
  unfold removeFwmarkRule, addFwmarkRule.
  rewrite !setFwmarkRule_busy by done. cbn.
  split_and!; try done. by apply issued_nil.
Qed.

Lemma disable_on_counted_network_is_busy_witness :
  let E := scripted_env (λ _, false) true in
  let ret := (removeFwmarkRule netd_constants E "tun0" with_route).1 in
  let s' := (removeFwmarkRule netd_constants E "tun0" with_route).2 in
  ret = -1 ∧ errno s' = EBUSY ∧ issued with_route s' = []
  ∧ mNetIdRuleCount s' = mNetIdRuleCount with_route
  ∧ trace s' = trace with_route ∧ sent s' = sent with_route
  ∧ removeFwmarkRule netd_constants E "tun0" with_route
    = addFwmarkRule netd_constants E "tun0" with_route.
Proof.
  intros E.
  apply (disable_on_counted_network_is_busy netd_constants E "tun0"
           with_route).
  by vm_compute.
Defined.

(** Whatever the guard decides, [setFwmarkRule] leaves the map alone. *)
Lemma setFwmarkRule_map K E iface add s :
  mNetIdRuleCount (setFwmarkRule K E iface add s).2 = mNetIdRuleCount s.
Proof.
  destruct (decide (map_count (mNetIdRuleCount s) (getNetworkId E iface) = 0))
    as [Hclean|Hbusy].
  - destruct (setFwmarkRule_run K E iface add s Hclean) as (evs & Hlog & _).
    by destruct Hlog.
  - rewrite setFwmarkRule_busy; [done|].
    unfold map_count in *. destruct (_ !! _); lia.
Qed.

(** C10.  [setFwmarkRule], adding or removing, returns with the
    reference-count map it was called with, whatever the external commands
    answer.  Hence on an interface whose network id is not in the map a
    second [addFwmarkRule] passes the guard again: it starts by running the
    default-route command. *)
Theorem fwmark_rule_keeps_rule_counts K E iface s :
  (∀ add, mNetIdRuleCount (setFwmarkRule K E iface add s).2
          = mNetIdRuleCount s)
  ∧ (map_count (mNetIdRuleCount s) (getNetworkId E iface) = 0 →
     let s1 := (addFwmarkRule K E iface s).2 in
     let s2 := (addFwmarkRule K E iface s1).2 in
     ∃ status rest,
       issued s1 s2
       = (Exec (route_cmd K iface true
                  (tableIndex_str K (getNetworkId E iface))), status)
         :: rest).
Proof.
  split; [intros add; apply setFwmarkRule_map|].
  intros Hclean s1 s2.
  assert (map_count (mNetIdRuleCount s1) (getNetworkId E iface) = 0) as Hclean1.
  { subst s1. unfold addFwmarkRule. by rewrite setFwmarkRule_map. }
  destruct (setFwmarkRule_run K E iface true s1 Hclean1)
    as (evs & (_ & _ & _ & Htrace) & Hrun).
  apply issued_app in Htrace. fold (addFwmarkRule K E iface s1) in Htrace.
  fold s2 in Htrace. rewrite Htrace.
  inversion Hrun; cbn; eauto.
Qed.



(** C1, as stated, fails twice on "tun0" (network 5, mark 1005) from a
    fresh controller.  When the IPv4 [ip rule add] fails, [addFwmarkRule]
    returns its status at once: the seven sub-steps after it are not
    attempted.  When only the IPv4 [ip route add default] fails,
    [addFwmarkRule] attempts everything else and returns 0. *)
Lemma fwmark_rule_failure_not_aggregated :
  let E := scripted_env rule_fails true in
  let E' := scripted_env route_fails true in
  ((addFwmarkRule netd_constants E "tun0" fresh).1 = 1
   ∧ issued fresh (addFwmarkRule netd_constants E "tun0" fresh).2
     = [(Exec ["/system/bin/ip"; "route"; "add"; "default"; "dev"; "tun0";
               "table"; "1005"], 0);
        (Exec ["/system/bin/ip"; "rule"; "add"; "prio"; "13000"; "fwmark";
               "1005"; "table"; "1005"], 1)])
  ∧ ((addFwmarkRule netd_constants E' "tun0" fresh).1 = 0
     ∧ head (issued fresh (addFwmarkRule netd_constants E' "tun0" fresh).2)
       = Some (Exec ["/system/bin/ip"; "route"; "add"; "default"; "dev";
                     "tun0"; "table"; "1005"], 1)
     ∧ length (issued fresh (addFwmarkRule netd_constants E' "tun0" fresh).2)
       = 9%nat).
Proof. by vm_compute. Qed.

(** C1, amended.  A call of [setFwmarkRule] that passes the busy guard
    attempts the sub-steps in their fixed order and stops at the first
    failure of the IPv4 rule command, the IPv6 rule command or the IPv4 NAT
    command, whose status it returns without attempting the sub-steps after
    it.  A non-zero return is the status of the last sub-step attempted, so
    the call returns non-zero only if a sub-step failed; and when the call
    returns zero, all nine unconditional sub-steps were attempted. *)
Theorem fwmark_rule_stops_at_failed_checkpoint K E iface add s :
  map_count (mNetIdRuleCount s) (getNetworkId E iface) = 0 →
  let ret := (setFwmarkRule K E iface add s).1 in
  let s' := (setFwmarkRule K E iface add s).2 in
  let mark_str := tableIndex_str K (getNetworkId E iface) in
  let steps := fwmark_steps K add iface mark_str in
  (∃ n, (issued s s').*1 = take n steps)
  ∧ (ret ≠ 0 → ∃ c, last (issued s s') = Some (c, ret))
  ∧ (ret = 0 → take 9 (issued s s').*1 = take 9 steps)
  ∧ (∀ c status,
       c ∈ [Exec (fwmark_cmd K add mark_str);
            Exec (fwmark6_cmd K add mark_str);
            Iptables V4 (nat_args iface add mark_str)] →
       (c, status) ∈ issued s s' → status ≠ 0 →
       last (issued s s') = Some (c, status) ∧ ret = status).
Proof.
  intros Hclean ret s' mark_str steps.
  destruct (setFwmarkRule_run K E iface add s Hclean)
    as (evs & (_ & _ & _ & Htrace) & Hrun).
  apply issued_app in Htrace. fold s' in Htrace. rewrite Htrace.
  fold ret mark_str steps in Hrun. clearbody ret mark_str. clear Htrace s'.
  subst steps.
  inversion Hrun; subst; destruct add; cbn;
    (split; [first [by exists 2%nat | by exists 4%nat | by exists 8%nat
                   | by exists 9%nat | by exists 10%nat]|]);
    (split; [intros Hret; by eexists|]);
    (split; [done|]);
    intros c status Hc Hin Hst; split_elem_of; simplify_eq; done.
Qed.

Lemma fwmark_rule_stops_at_failed_checkpoint_witness :
  let E := scripted_env rule_fails true in
  let ret := (setFwmarkRule netd_constants E "tun0" true fresh).1 in
  let s' := (setFwmarkRule netd_constants E "tun0" true fresh).2 in
  let steps := fwmark_steps netd_constants true "tun0" "1005" in
  (∃ n, (issued fresh s').*1 = take n steps)
  ∧ (ret ≠ 0 → ∃ c, last (issued fresh s') = Some (c, ret))
  ∧ (ret = 0 → take 9 (issued fresh s').*1 = take 9 steps)
  ∧ (∀ c status,
       c ∈ [Exec (fwmark_cmd netd_constants true "1005");
            Exec (fwmark6_cmd netd_constants true "1005");
            Iptables V4 (nat_args "tun0" true "1005")] →
       (c, status) ∈ issued fresh s' → status ≠ 0 →
       last (issued fresh s') = Some (c, status) ∧ ret = status).
Proof.
  intros E.
  apply (fwmark_rule_stops_at_failed_checkpoint netd_constants E "tun0" true
           fresh).
  reflexivity.
Defined.

(** ** UID rules *)

(** C8.  [setUidRule] (so [addUidRule] and [removeUidRule]) first asks the
    registry to associate the UID range.  If the registry refuses, the call
    sets [errno] to [EINVAL] and returns -1, and the registry request is
    the only external invocation it made: no iptables command.  The
    owner-match rule is issued only when the registry accepted, after the
    request, and its status is what the call returns. *)
Theorem uid_rule_needs_registry_success E iface uid_start uid_end
    (add : bool) s :
  let netId := if add then getNetworkId E iface else 0%N in
  let ok := setNetworkForUidRange E (trace s) uid_start uid_end netId false in
  let request := (UidRange uid_start uid_end netId false, Z.b2z ok) in
  let ret := (setUidRule E iface uid_start uid_end add s).1 in
  let s' := (setUidRule E iface uid_start uid_end add s).2 in
  (ok = false ∧ ret = -1 ∧ errno s' = EINVAL
   ∧ issued s s' = [request]
   ∧ filter (λ e, is_kernel_command e = true) (issued s s') = [])
  ∨ (ok = true
     ∧ ∃ status,
         issued s s'
         = [request;
            (Iptables V4V6 (uid_rule_args add iface uid_start uid_end),
             status)]
         ∧ ret = status).
Proof.
  intros netId ok request ret s'. subst ret s' request.
  unfold setUidRule, mbind, M_bind, mNetCtrl_setNetworkForUidRange.
  cbn [log snd trace]. fold netId. fold ok.
  destruct ok; cbn [negb].
  - right. split; [done|]. rewrite execIptables_eq. cbn [trace fst snd].
    eexists. split; [|reflexivity].
    apply issued_app. cbn [trace]. by rewrite <- app_assoc.
  - left. cbn. split; [done|]. split; [done|]. split; [done|].
    rewrite (issued_app _ _ [(UidRange uid_start uid_end netId false, 0)])
      by done.
    done.
Qed.

(** * Further properties *)

(** ** Formatted buffers *)

Lemma substring_length_le n s :
  (String.length (String.substring 0 n s) ≤ n)%nat.
Proof.
  revert s. induction n as [|n IH]; intros [|a s]; simpl; try lia.
  specialize (IH s). lia.
Qed.

Lemma substring_all n s :
  (String.length s ≤ n)%nat → String.substring 0 n s = s.
Proof.
  revert s. induction n as [|n IH]; intros [|a s]; simpl; try done; try lia.
  intros Hlen. f_equal. apply IH. lia.
Qed.

Lemma string_length_app s1 s2 :
  String.length (s1 +:+ s2) = (String.length s1 + String.length s2)%nat.
Proof. induction s1 as [|a s1 IH]; simpl; [done|]. by rewrite IH. Qed.

Lemma string_app_inj_r s1 s2 s :
  s1 +:+ s = s2 +:+ s → s1 = s2.
Proof.
  revert s2. induction s1 as [|a s1 IH]; intros [|b s2] Heq; simpl in *.
  - done.
  - apply (f_equal String.length) in Heq.
    rewrite ?string_length_app in Heq. simpl in Heq.
    rewrite ?string_length_app in Heq. lia.
  - apply (f_equal String.length) in Heq.
    rewrite ?string_length_app in Heq. simpl in Heq.
    rewrite ?string_length_app in Heq. lia.
  - injection Heq as -> Heq. f_equal. by apply IH.
Qed.

Lemma pretty_N_go_length k x s :
  (x < 10 ^ N.of_nat k)%N →
  (String.length (pretty_N_go x s) ≤ k + String.length s)%nat.
Proof.
  revert x s. induction k as [|k IH]; intros x s Hx.
  - assert (x = 0%N) as -> by (simpl in Hx; lia). by rewrite pretty_N_go_0.
  - destruct (decide (x = 0%N)) as [->|Hne].
    + rewrite pretty_N_go_0. lia.
    + rewrite pretty_N_go_step by lia.
      etrans; [apply IH|simpl; lia].
      apply N.Div0.div_lt_upper_bound.
      rewrite Nat2N.inj_succ, N.pow_succ_r' in Hx. lia.
Qed.

Lemma pretty_uint32_length n :
  (String.length (pretty (uint32 n)) ≤ 10)%nat.
Proof.
  unfold pretty, pretty_N. case_decide; [simpl; lia|].
  etrans; [apply (pretty_N_go_length 10)|simpl; lia].
  unfold uint32. pose proof (N.mod_lt n (2 ^ 32)%N). lia.
Qed.

(** The "%u" of a table index always fits its [char[11]]. *)
Lemma tableIndex_str_exact K netId :
  tableIndex_str K netId = pretty (uint32 (netId + BASE_TABLE_NUMBER K)).
Proof.
  unfold tableIndex_str, snprintf. apply substring_all.
  pose proof (pretty_uint32_length (netId + BASE_TABLE_NUMBER K)). simpl. lia.
Qed.

Lemma uint32_add_inj n1 n2 b :
  (n1 < 2 ^ 32)%N → (n2 < 2 ^ 32)%N →
  uint32 (n1 + b) = uint32 (n2 + b) → n1 = n2.
Proof.
  unfold uint32. intros H1 H2 Heq.
  pose proof (N.Div0.div_mod (n1 + b) (2 ^ 32)%N) as E1.
  pose proof (N.Div0.div_mod (n2 + b) (2 ^ 32)%N) as E2.
  rewrite Heq in E1.
  pose proof (N.mod_lt (n2 + b) (2 ^ 32)%N) as Hlt.
  nia.
Qed.

Lemma tableIndex_str_inj_unsigned K n1 n2 :
  (n1 < 2 ^ 32)%N → (n2 < 2 ^ 32)%N →
  tableIndex_str K n1 = tableIndex_str K n2 → n1 = n2.
Proof.
  intros H1 H2. rewrite !tableIndex_str_exact. intros Heq%(inj pretty).
  by apply uint32_add_inj in Heq.
Qed.

Lemma pretty_N_length k x :
  (0 < k)%nat → (x < 10 ^ N.of_nat k)%N →
  (String.length (pretty x) ≤ k)%nat.
Proof.
  intros Hk Hx. unfold pretty, pretty_N. case_decide; [simpl; lia|].
  etrans; [by apply (pretty_N_go_length k)|simpl; lia].
Qed.

(** X1.  Within [unsigned], the decimal table index (which is also the
    fwmark) is never truncated by its buffer and tells network ids apart:
    two ids below 2^32 get the same string only if they are equal, whatever
    [BASE_TABLE_NUMBER] is and even when the sum wraps around. *)
Theorem table_index_distinguishes_networks K n1 n2 :
  (n1 < 2 ^ 32)%N → (n2 < 2 ^ 32)%N →
  tableIndex_str K n1 = pretty (uint32 (n1 + BASE_TABLE_NUMBER K))
  ∧ (tableIndex_str K n1 = tableIndex_str K n2 ↔ n1 = n2).
Proof.
  intros H1 H2. split; [apply tableIndex_str_exact|].
  split; [by apply tableIndex_str_inj_unsigned|by intros ->].
Qed.

Lemma table_index_distinguishes_networks_witness :
  tableIndex_str netd_constants 4294967295
  = pretty (uint32 (4294967295 + BASE_TABLE_NUMBER netd_constants))
  ∧ (tableIndex_str netd_constants 4294967295 = tableIndex_str netd_constants 5
     ↔ 4294967295%N = 5%N).
Proof.
  apply (table_index_distinguishes_networks netd_constants 4294967295 5);
    by vm_compute.
Defined.

(** X2.  For an interface name of at most 16 characters the chain name is
    the full "st_mangle_<iface>_OUTPUT", and distinct such interfaces get
    distinct chains. *)
Theorem chain_str_exact_within_ifnamsiz iface :
  (String.length iface ≤ IFNAMSIZ)%nat →
  chain_str iface = "st_mangle_" +:+ iface +:+ "_OUTPUT"
  ∧ ∀ iface', (String.length iface' ≤ IFNAMSIZ)%nat →
      chain_str iface = chain_str iface' → iface = iface'.
Proof.
  assert (Hexact : ∀ i, (String.length i ≤ IFNAMSIZ)%nat →
            chain_str i = "st_mangle_" +:+ i +:+ "_OUTPUT").
  { intros i Hi. unfold chain_str, snprintf, LOCAL_MANGLE_IFACE_FORMAT.
    apply substring_all. rewrite !string_length_app.
    unfold IFNAMSIZ in *. simpl. lia. }
  intros Hlen. split; [by apply Hexact|].
  intros iface' Hlen'. rewrite !Hexact by done.
  intros Heq%(inj (String.app "st_mangle_")).
  by apply string_app_inj_r in Heq.
Qed.

Lemma chain_str_exact_within_ifnamsiz_witness :
  chain_str "tun0" = "st_mangle_" +:+ "tun0" +:+ "_OUTPUT"
  ∧ ∀ iface', (String.length iface' ≤ IFNAMSIZ)%nat →
      chain_str "tun0" = chain_str iface' → "tun0" = iface'.
Proof.
  apply (chain_str_exact_within_ifnamsiz "tun0"). vm_compute. lia.
Defined.

(** X3.  The destination buffer of [modifyRoute] and [setFwmarkRoute] is,
    as its comment says, enough for an IPv6 address and a three-digit
    prefix length: a destination of at most 39 characters with a prefix
    between 0 and 999 is formatted in full, "<dest>/<prefix>". *)
Theorem dest_str_holds_ipv6_and_prefix dest prefix :
  (String.length dest ≤ 39)%nat → 0 ≤ prefix ≤ 999 →
  dest_str dest prefix = dest +:+ "/" +:+ pretty prefix.
Proof.
  intros Hdest Hprefix. unfold dest_str, snprintf. apply substring_all.
  rewrite !string_length_app.
  assert (String.length (pretty prefix) ≤ 3)%nat as Hp.
  { destruct prefix as [|p|p]; [simpl; lia| |lia].
    change (pretty (Z.pos p)) with (pretty (N.pos p)).
    apply pretty_N_length; [lia|]. simpl. lia. }
  simpl. lia.
Qed.

Lemma dest_str_holds_ipv6_and_prefix_witness :
  dest_str "ffff:ffff:ffff:ffff:ffff:ffff:ffff:ffff" 128
  = "ffff:ffff:ffff:ffff:ffff:ffff:ffff:ffff" +:+ "/" +:+ pretty 128.
Proof.
  apply (dest_str_holds_ipv6_and_prefix
           "ffff:ffff:ffff:ffff:ffff:ffff:ffff:ffff" 128).
  - vm_compute. lia.
  - lia.
Defined.

(** ** More on the reference counter *)

Lemma increment_other m netId netId' :
  netId' ≠ netId → increment m netId !! netId' = m !! netId'.
Proof.
  intros Hne. unfold increment.
  destruct (m !! netId); by rewrite lookup_insert_ne.
Qed.

Lemma decrement_other m netId netId' :
  netId' ≠ netId → decrement m netId !! netId' = m !! netId'.
Proof.
  intros Hne. unfold decrement. destruct (m !! netId); [|done].
  case_decide; [by rewrite lookup_delete_ne|by rewrite lookup_insert_ne].
Qed.

Lemma increment_present m netId : is_Some (increment m netId !! netId).
Proof.
  unfold increment. destruct (m !! netId); rewrite lookup_insert_eq; eauto.
Qed.

(** X4.  [modifyRuleCount] for one network id, whatever the action, leaves
    the entry of every other network id as it was. *)
Theorem modifyRuleCount_other_ids K netId action s netId' :
  netId' ≠ netId →
  mNetIdRuleCount (modifyRuleCount K netId action s).2 !! netId'
  = mNetIdRuleCount s !! netId'.
Proof.
  intros Hne. destruct (decide (action = ADD K)) as [->|Hact].
  - rewrite modifyRuleCount_ADD. by apply increment_other.
  - rewrite modifyRuleCount_other by done. by apply decrement_other.
Qed.

Lemma modifyRuleCount_other_ids_witness :
  mNetIdRuleCount (modifyRuleCount netd_constants 7 "del" with_route).2 !! 5%N
  = mNetIdRuleCount with_route !! 5%N.
Proof.
  apply (modifyRuleCount_other_ids netd_constants 7 "del" with_route 5).
  discriminate.
Defined.

Lemma modifyRuleCounts_app K ops1 ops2 s :
  (modifyRuleCounts K (ops1 ++ ops2) s).2
  = (modifyRuleCounts K ops2 (modifyRuleCounts K ops1 s).2).2.
Proof.
  revert s. induction ops1 as [|[netId action] ops1 IH]; intros s; [done|].
  cbn [app modifyRuleCounts]. unfold mbind, M_bind.
  destruct (modifyRuleCount K netId action s) as [[] s1]. apply IH.
Qed.

Lemma modifyRuleCounts_cons K netId action ops s :
  (modifyRuleCounts K ((netId, action) :: ops) s).2
  = (modifyRuleCounts K ops (modifyRuleCount K netId action s).2).2.
Proof.
  cbn [modifyRuleCounts]. unfold mbind, M_bind.
  by destruct (modifyRuleCount K netId action s) as [[] s1].
Qed.

Lemma increments_map K netId (n : nat) : ∀ s,
  - 2 ^ 31 ≤ refcount s netId →
  refcount s netId + Z.of_nat n ≤ INT_MAX →
  (0 < n)%nat →
  mNetIdRuleCount (modifyRuleCounts K (replicate n (netId, ADD K)) s).2
  = <[netId := refcount s netId + Z.of_nat n]> (mNetIdRuleCount s).
Proof.
  induction n as [|n IH]; intros s Hlo Hhi Hn; [lia|].
  cbn [replicate]. rewrite modifyRuleCounts_cons.
  set (s1 := (modifyRuleCount K netId (ADD K) s).2).
  assert (Hm1 : mNetIdRuleCount s1
                = <[netId := refcount s netId + 1]> (mNetIdRuleCount s)).
  { subst s1. rewrite modifyRuleCount_ADD. unfold increment, refcount, map_at in *.
    destruct (mNetIdRuleCount s !! netId) as [c|] eqn:Hc; simpl in *; [|done].
    rewrite sint32_id by (unfold INT_MAX in *; lia). done. }
  destruct n as [|n].
  - simpl. rewrite Hm1. done.
  - assert (Hc1 : refcount s1 netId = refcount s netId + 1).
    { unfold refcount at 1, map_at. by rewrite Hm1, lookup_insert_eq. }
    rewrite IH by (rewrite ?Hc1; lia).
    rewrite Hc1, Hm1, insert_insert_eq. f_equal. lia.
Qed.

(** X5.  [n] calls of [modifyRuleCount] with [ADD] for one network id
    raise its count by [n] (from 0 when the id was absent) and touch no
    other entry, as long as the [int] does not overflow. *)
Theorem repeated_increments_add_up K netId (n : nat) s :
  - 2 ^ 31 ≤ refcount s netId →
  refcount s netId + Z.of_nat n ≤ INT_MAX →
  (0 < n)%nat →
  let s' := (modifyRuleCounts K (replicate n (netId, ADD K)) s).2 in
  refcount s' netId = refcount s netId + Z.of_nat n
  ∧ mNetIdRuleCount s'
    = <[netId := refcount s netId + Z.of_nat n]> (mNetIdRuleCount s).
Proof.
  intros Hlo Hhi Hn s'.
  assert (Hmap : mNetIdRuleCount s'
                 = <[netId := refcount s netId + Z.of_nat n]>
                     (mNetIdRuleCount s))
    by (by apply increments_map).
  split; [|exact Hmap].
  unfold refcount at 1, map_at. by rewrite Hmap, lookup_insert_eq.
Qed.

Lemma repeated_increments_add_up_witness :
  let s' := (modifyRuleCounts netd_constants
               (replicate 3 (5%N, ADD netd_constants)) with_route).2 in
  refcount s' 5 = refcount with_route 5 + Z.of_nat 3
  ∧ mNetIdRuleCount s'
    = <[5%N := refcount with_route 5 + Z.of_nat 3]>
        (mNetIdRuleCount with_route).
Proof.
  apply (repeated_increments_add_up netd_constants 5 3 with_route).
  - by vm_compute.
  - by vm_compute.
  - lia.
Defined.

Lemma decrements_map K netId action (j : nat) : ∀ s v,
  action ≠ ADD K →
  mNetIdRuleCount s !! netId = Some v → 1 ≤ v ≤ INT_MAX →
  mNetIdRuleCount (modifyRuleCounts K (replicate j (netId, action)) s).2
  = if decide (v - Z.of_nat j < 1) then delete netId (mNetIdRuleCount s)
    else <[netId := v - Z.of_nat j]> (mNetIdRuleCount s).
Proof.
  induction j as [|j IH]; intros s v Hact Hv Hrange.
  - simpl. rewrite decide_False by lia. rewrite Z.sub_0_r.
    symmetry. by apply insert_id.
  - cbn [replicate]. rewrite modifyRuleCounts_cons.
    set (s1 := (modifyRuleCount K netId action s).2).
    assert (Hm1 : mNetIdRuleCount s1 = decrement (mNetIdRuleCount s) netId)
      by (by apply modifyRuleCount_other).
    unfold decrement in Hm1. rewrite Hv in Hm1.
    rewrite sint32_id in Hm1 by (unfold INT_MAX in *; lia).
    destruct (decide (v - 1 < 1)) as [Hlast|Hmore].
    + rewrite decide_True by lia.
      assert (mNetIdRuleCount s1 !! netId = None) as Hgone
        by (by rewrite Hm1, lookup_delete_eq).
      clear IH. rewrite <- Hm1. clearbody s1. clear Hm1.
      induction j as [|j IHj] in s1, Hgone |- *; [done|].
      cbn [replicate]. rewrite modifyRuleCounts_cons.
      assert (mNetIdRuleCount (modifyRuleCount K netId action s1).2
              = mNetIdRuleCount s1) as Hsame.
      { rewrite modifyRuleCount_other by done. unfold decrement.
        by rewrite Hgone. }
      rewrite IHj by (by rewrite Hsame). done.
    + rewrite (IH s1 (v - 1)); [|done|by rewrite Hm1, lookup_insert_eq|lia].
      rewrite Hm1.
      replace (v - 1 - Z.of_nat j) with (v - Z.of_nat (S j)) by lia.
      case_decide.
      * by rewrite delete_insert_eq.
      * by rewrite insert_insert_eq.
Qed.

(** X6.  [j] calls of [modifyRuleCount] with [DEL] on an id that holds the
    positive count [v] leave [v - j] when that is at least 1, and otherwise
    remove the entry: once the entry is gone further calls change nothing.
    So the id is still in the map afterwards exactly when [j < v]. *)
Theorem repeated_decrements_saturate K netId (j : nat) s v :
  ADD K ≠ DEL K →
  mNetIdRuleCount s !! netId = Some v → 1 ≤ v ≤ INT_MAX →
  let s' := (modifyRuleCounts K (replicate j (netId, DEL K)) s).2 in
  mNetIdRuleCount s'
  = (if decide (v - Z.of_nat j < 1) then delete netId (mNetIdRuleCount s)
     else <[netId := v - Z.of_nat j]> (mNetIdRuleCount s))
  ∧ (map_count (mNetIdRuleCount s') netId > 0 ↔ Z.of_nat j < v).
Proof.
  intros Hne Hv Hrange s'.
  assert (Hmap : mNetIdRuleCount s'
                 = if decide (v - Z.of_nat j < 1)
                   then delete netId (mNetIdRuleCount s)
                   else <[netId := v - Z.of_nat j]> (mNetIdRuleCount s)).
  { apply decrements_map; [congruence|done..]. }
  split; [exact Hmap|].
  unfold map_count. rewrite Hmap. case_decide.
  - rewrite lookup_delete_eq. lia.
  - rewrite lookup_insert_eq. lia.
Qed.

Lemma repeated_decrements_saturate_witness :
  let s' := (modifyRuleCounts netd_constants
               (replicate 4 (5%N, DEL netd_constants)) with_route).2 in
  mNetIdRuleCount s'
  = (if decide (1 - Z.of_nat 4 < 1)
     then delete 5%N (mNetIdRuleCount with_route)
     else <[5%N := 1 - Z.of_nat 4]> (mNetIdRuleCount with_route))
  ∧ (map_count (mNetIdRuleCount s') 5 > 0 ↔ Z.of_nat 4 < 1).
Proof.
  apply (repeated_decrements_saturate netd_constants 5 4 with_route 1).
  - discriminate.
  - reflexivity.
  - by vm_compute.
Defined.

(** X7.  [n] increments followed by [n] decrements of one network id give
    back the map they started from, on a map of positive counts and as
    long as the [int] does not overflow. *)
Theorem increments_then_decrements_restore K netId (n : nat) s :
  ADD K ≠ DEL K →
  counts_positive (mNetIdRuleCount s) →
  refcount s netId + Z.of_nat n ≤ INT_MAX →
  mNetIdRuleCount
    (modifyRuleCounts K (replicate n (netId, ADD K)
                         ++ replicate n (netId, DEL K)) s).2
  = mNetIdRuleCount s.
Proof.
  intros Hne Hpos Hhi. destruct n as [|n]; [done|].
  rewrite modifyRuleCounts_app.
  set (s1 := (modifyRuleCounts K (replicate (S n) (netId, ADD K)) s).2).
  assert (Hc : 0 ≤ refcount s netId ∧
               (mNetIdRuleCount s !! netId = None → refcount s netId = 0) ∧
               (∀ c, mNetIdRuleCount s !! netId = Some c
                     → refcount s netId = c ∧ 1 ≤ c)).
  { unfold refcount, map_at.
    destruct (mNetIdRuleCount s !! netId) as [c|] eqn:Hlk; simpl.
    - specialize (Hpos _ _ Hlk). split; [lia|]. split; [done|].
      intros ? [= <-]. lia.
    - split; [lia|]. split; [done|]. done. }
  destruct Hc as (Hc0 & Hnone & Hsome).
  assert (Hm1 : mNetIdRuleCount s1
                = <[netId := refcount s netId + Z.of_nat (S n)]>
                    (mNetIdRuleCount s)).
  { subst s1. apply increments_map; [lia|done|lia]. }
  rewrite (decrements_map K netId (DEL K) (S n) s1
             (refcount s netId + Z.of_nat (S n)));
    [|congruence|by rewrite Hm1, lookup_insert_eq|lia].
  rewrite Hm1.
  replace (refcount s netId + Z.of_nat (S n) - Z.of_nat (S n))
    with (refcount s netId) by lia.
  destruct (mNetIdRuleCount s !! netId) as [c|] eqn:Hlk.
  - destruct (Hsome c eq_refl) as [-> Hc1].
    rewrite decide_False by lia. rewrite insert_insert_eq.
    by apply insert_id.
  - rewrite Hnone by done. rewrite decide_True by lia.
    rewrite delete_insert_eq. by apply delete_id.
Qed.

Lemma increments_then_decrements_restore_witness :
  mNetIdRuleCount
    (modifyRuleCounts netd_constants
       (replicate 3 (5%N, ADD netd_constants)
        ++ replicate 3 (5%N, DEL netd_constants)) with_route).2
  = mNetIdRuleCount with_route.
Proof.
  apply (increments_then_decrements_restore netd_constants 5 3 with_route).
  - discriminate.
  - intros k c. simpl. intros [<- <-]%lookup_singleton_Some.
    unfold INT_MAX. lia.
  - by vm_compute.
Defined.

Lemma increment_past_int_max_wraps K netId (n : nat) s :
  mNetIdRuleCount s !! netId = None →
  Z.of_nat n = INT_MAX →
  mNetIdRuleCount
    (modifyRuleCounts K (replicate n (netId, ADD K) ++ [(netId, ADD K)]) s).2
  !! netId = Some (- 2 ^ 31).
Proof.
  intros Habsent Hn.
  assert (Hc : refcount s netId = 0)
    by (unfold refcount, map_at; by rewrite Habsent).
  rewrite modifyRuleCounts_app, modifyRuleCounts_cons.
  change (modifyRuleCounts K [] ?s0) with (tt, s0). cbn [snd].
  rewrite modifyRuleCount_ADD.
  rewrite increments_map; rewrite ?Hc, ?Hn; unfold INT_MAX in *; try lia.
  unfold increment. rewrite lookup_insert_eq, lookup_insert_eq.
  reflexivity.
Qed.

(** C3, as stated, fails once the [int] count runs out: [INT_MAX] + 1
    calls of [modifyRuleCount] with [ADD] for network 5, from the empty
    map, leave network 5 in the map with the count -2147483648. *)
Lemma rule_count_negative_past_int_max :
  let ops := replicate (Z.to_nat INT_MAX) (5%N, ADD netd_constants)
             ++ [(5%N, ADD netd_constants)] in
  let s' := (modifyRuleCounts netd_constants ops fresh).2 in
  mNetIdRuleCount s' !! 5%N = Some (-2147483648)
  ∧ map_count (mNetIdRuleCount s') 5 > 0
  ∧ ¬ (1 ≤ refcount s' 5).
Proof.
  intros ops s'.
  assert (Hlk : mNetIdRuleCount s' !! 5%N = Some (-2147483648)).
  { apply (increment_past_int_max_wraps netd_constants 5
             (Z.to_nat INT_MAX) fresh).
    - reflexivity.
    - apply Z2Nat.id. discriminate. }
  split; [exact Hlk|].
  unfold refcount, map_count, map_at. rewrite Hlk.
  split; [reflexivity|]. intros H. apply H. reflexivity.
Qed.

(** ** Routes and the busy guard *)

Lemma addRoute_status K E iface dest prefix gateway s :
  let r := (addRoute K E iface dest prefix gateway s).1 in
  let s' := (addRoute K E iface dest prefix gateway s).2 in
  (r = 0 ∧ mNetIdRuleCount s'
           = increment (mNetIdRuleCount s) (getNetworkId E iface))
  ∨ (r = -1 ∧ mNetIdRuleCount s' = mNetIdRuleCount s).
Proof.
  intros r s'. subst r s'. unfold addRoute.
  pose proof (modifyRoute_run K E (ADD K) iface dest prefix gateway
                (getNetworkId E iface) s) as Hrun.
  cbv zeta in Hrun. destruct Hrun as (_ & Hfail & Hok).
  match type of Hfail with ?st ≠ 0 → _ =>
    destruct (decide (st = 0)) as [Hst|Hst] end.
  - left. destruct (Hok Hst) as (Hr & Hm & _). split; [done|].
    rewrite Hm. apply modifyRuleCount_ADD.
  - right. destruct (Hfail Hst) as (Hr & _ & Hm & _). done.
Qed.

Lemma removeRoute_status K E iface dest prefix gateway s :
  ADD K ≠ DEL K →
  let r := (removeRoute K E iface dest prefix gateway s).1 in
  let s' := (removeRoute K E iface dest prefix gateway s).2 in
  (r = 0 ∧ mNetIdRuleCount s'
           = decrement (mNetIdRuleCount s) (getNetworkId E iface))
  ∨ (r = -1 ∧ mNetIdRuleCount s' = mNetIdRuleCount s).
Proof.
  intros Hne r s'. subst r s'. unfold removeRoute.
  pose proof (modifyRoute_run K E (DEL K) iface dest prefix gateway
                (getNetworkId E iface) s) as Hrun.
  cbv zeta in Hrun. destruct Hrun as (_ & Hfail & Hok).
  match type of Hfail with ?st ≠ 0 → _ =>
    destruct (decide (st = 0)) as [Hst|Hst] end.
  - left. destruct (Hok Hst) as (Hr & Hm & _). split; [done|].
    rewrite Hm. apply modifyRuleCount_other. congruence.
  - right. destruct (Hfail Hst) as (Hr & _ & Hm & _). done.
Qed.

Lemma present_counted (m : gmap N Z) netId :
  is_Some (m !! netId) → map_count m netId > 0.
Proof. unfold map_count. intros [c ->]. lia. Qed.

Lemma decrement_increment m netId :
  counts_positive m → decrement (increment m netId) netId = m.
Proof.
  intros Hpos. unfold increment, decrement.
  destruct (m !! netId) as [c|] eqn:Hc; rewrite lookup_insert_eq.
  - specialize (Hpos _ _ Hc).
    rewrite sint32_pred_succ by (unfold INT_MAX in *; lia).
    rewrite decide_False by lia.
    rewrite insert_insert_eq. by apply insert_id.
  - rewrite decide_True by (by vm_compute).
    rewrite delete_insert_eq. by apply delete_id.
Qed.

(** X8.  Once [addRoute] has succeeded for an interface, [setFwmarkRule]
    for that interface, adding or removing, is refused: it returns -1 with
    [errno = EBUSY] and runs no command. *)
Theorem counted_route_blocks_fwmark K E iface dest prefix gateway add s :
  (addRoute K E iface dest prefix gateway s).1 = 0 →
  let s1 := (addRoute K E iface dest prefix gateway s).2 in
  let ret := (setFwmarkRule K E iface add s1).1 in
  let s2 := (setFwmarkRule K E iface add s1).2 in
  ret = -1 ∧ errno s2 = EBUSY ∧ issued s1 s2 = []
  ∧ mNetIdRuleCount s2 = mNetIdRuleCount s1.
Proof.
  intros Hok s1 ret s2. subst ret s2.
  destruct (addRoute_status K E iface dest prefix gateway s)
    as [[_ Hm]|[Hr _]]; [|lia].
  fold s1 in Hm.
  rewrite setFwmarkRule_busy.
  - cbn. split_and!; try done. by apply issued_nil.
  - apply present_counted. rewrite Hm. apply increment_present.
Qed.

Lemma counted_route_blocks_fwmark_witness :
  let E := scripted_env (λ _, false) true in
  let s1 := (addRoute netd_constants E "tun0" "10.1.0.0" 16 "10.0.0.1"
               fresh).2 in
  let ret := (setFwmarkRule netd_constants E "tun0" true s1).1 in
  let s2 := (setFwmarkRule netd_constants E "tun0" true s1).2 in
  ret = -1 ∧ errno s2 = EBUSY ∧ issued s1 s2 = []
  ∧ mNetIdRuleCount s2 = mNetIdRuleCount s1.
Proof.
  intros E.
  apply (counted_route_blocks_fwmark netd_constants E "tun0" "10.1.0.0" 16
           "10.0.0.1" true fresh).
  reflexivity.
Defined.

(** X9.  A successful [addRoute] followed by a successful [removeRoute] on
    the same interface, for whatever destinations, leaves the reference
    counts as they were before the two calls. *)
Theorem route_added_then_removed_restores_counts K E iface
    dest prefix gateway dest' prefix' gateway' s :
  ADD K ≠ DEL K →
  counts_positive (mNetIdRuleCount s) →
  let s1 := (addRoute K E iface dest prefix gateway s).2 in
  let s2 := (removeRoute K E iface dest' prefix' gateway' s1).2 in
  (addRoute K E iface dest prefix gateway s).1 = 0 →
  (removeRoute K E iface dest' prefix' gateway' s1).1 = 0 →
  mNetIdRuleCount s2 = mNetIdRuleCount s.
Proof.
  intros Hne Hpos s1 s2 Hadd Hdel. subst s2.
  destruct (addRoute_status K E iface dest prefix gateway s)
    as [[_ Hm1]|[Hr _]]; [|lia].
  fold s1 in Hm1.
  destruct (removeRoute_status K E iface dest' prefix' gateway' s1 Hne)
    as [[_ Hm2]|[Hr _]]; [|lia].
  rewrite Hm2, Hm1. by apply decrement_increment.
Qed.

Lemma route_added_then_removed_restores_counts_witness :
  let E := scripted_env (λ _, false) true in
  let s1 := (addRoute netd_constants E "tun0" "10.1.0.0" 16 "10.0.0.1"
               with_route).2 in
  let s2 := (removeRoute netd_constants E "tun0" "10.2.0.0" 24 "::" s1).2 in
  mNetIdRuleCount s2 = mNetIdRuleCount with_route.
Proof.
  intros E.
  apply (route_added_then_removed_restores_counts netd_constants E "tun0"
           "10.1.0.0" 16 "10.0.0.1" "10.2.0.0" 24 "::" with_route).
  - discriminate.
  - intros k c. simpl. intros [<- <-]%lookup_singleton_Some.
    unfold INT_MAX. lia.
  - reflexivity.
  - reflexivity.
Defined.

(** X10.  [removeRoute] for an interface whose network id has no entry
    never creates one: whether its command succeeds or fails, the map is
    unchanged. *)
Theorem removeRoute_without_entry_keeps_map K E iface dest prefix gateway s :
  ADD K ≠ DEL K →
  mNetIdRuleCount s !! getNetworkId E iface = None →
  mNetIdRuleCount (removeRoute K E iface dest prefix gateway s).2
  = mNetIdRuleCount s.
Proof.
  intros Hne Habsent.
  destruct (removeRoute_status K E iface dest prefix gateway s Hne)
    as [[_ Hm]|[_ Hm]]; [|done].
  rewrite Hm. unfold decrement. by rewrite Habsent.
Qed.

Lemma removeRoute_without_entry_keeps_map_witness :
  let E := scripted_env (λ _, false) true in
  mNetIdRuleCount (removeRoute netd_constants E "tun0" "10.1.0.0" 16 "::"
                     fresh).2
  = mNetIdRuleCount fresh.
Proof.
  intros E.
  apply (removeRoute_without_entry_keeps_map netd_constants E "tun0"
           "10.1.0.0" 16 "::" fresh).
  - discriminate.
  - reflexivity.
Defined.

(** ** Source rules and local routes *)

(** X11.  [modifyFromRule] runs one [ip rule] command, with "-6" exactly
    when the address contains a colon, and goes by the status the
    environment gives for it.  If the command fails it returns -1 and the
    reference counts are unchanged; if it succeeds it returns 0 and the
    count of the network id is incremented ([ADD]) or decremented ([DEL]).
    Unlike [modifyRoute] it neither replies to a client nor sets
    [errno]. *)
Theorem modifyFromRule_counts_on_success K E netId (add : bool) addr s :
  ADD K ≠ DEL K →
  let argv := [IP_PATH K; if strchr addr ":" then "-6" else "-4"; "rule";
               action_of K add; "from"; addr; "table";
               tableIndex_str K netId] in
  let status := android_fork_execvp E (trace s) argv in
  let ret := (modifyFromRule K E netId (action_of K add) addr s).1 in
  let s' := (modifyFromRule K E netId (action_of K add) addr s).2 in
  issued s s' = [(Exec argv, status)]
  ∧ sent s' = sent s ∧ errno s' = errno s
  ∧ ((status ≠ 0 ∧ ret = -1 ∧ mNetIdRuleCount s' = mNetIdRuleCount s)
     ∨ (status = 0 ∧ ret = 0
        ∧ mNetIdRuleCount s'
          = (if add then increment else decrement)
              (mNetIdRuleCount s) netId)).
Proof.
  intros Hne argv status ret s'. subst ret s'.
  unfold modifyFromRule, mbind, M_bind, getVersion.
  run_calls. fold argv. fold status. clearbody status.
  destruct (decide (status ≠ 0)) as [Hst|Hst].
  - cbn. split; [by apply issued_app|]. split; [done|]. split; [done|].
    left. done.
  - assert (status = 0) as -> by lia.
    set (s1 := {| mNetIdRuleCount := _ |}).
    pose proof (modifyRuleCount_frame K netId (action_of K add) s1)
      as (He & Ht & Hr).
    assert (Hm : mNetIdRuleCount (modifyRuleCount K netId (action_of K add) s1).2
                 = (if add then increment else decrement)
                     (mNetIdRuleCount s) netId).
    { unfold action_of. destruct add.
      - by rewrite modifyRuleCount_ADD.
      - rewrite modifyRuleCount_other by congruence. done. }
    destruct (modifyRuleCount K netId (action_of K add) s1) as [[] s2].
    cbn in He, Ht, Hr, Hm |- *.
    split; [by apply issued_app|]. split; [done|]. split; [done|].
    right. done.
Qed.

Lemma modifyFromRule_counts_on_success_witness :
  let ok := scripted_env (λ _, false) true in
  let ko := scripted_env (λ _, true) true in
  let argv := ["/system/bin/ip"; "-6"; "rule"; "add"; "from"; "fe80::1";
               "table"; "1005"] in
  let done_ := modifyFromRule netd_constants ok 5
                 (action_of netd_constants true) "fe80::1" fresh in
  let failed := modifyFromRule netd_constants ko 5
                  (action_of netd_constants true) "fe80::1" fresh in
  (issued fresh done_.2 = [(Exec argv, 0)] ∧ done_.1 = 0
   ∧ mNetIdRuleCount done_.2 = increment (mNetIdRuleCount fresh) 5)
  ∧ (issued fresh failed.2 = [(Exec argv, 1)] ∧ failed.1 = -1
     ∧ mNetIdRuleCount failed.2 = mNetIdRuleCount fresh).
Proof.
  intros ok ko argv done_ failed.
  assert (Hne : ADD netd_constants ≠ DEL netd_constants) by discriminate.
  split.
  - destruct (modifyFromRule_counts_on_success netd_constants ok 5 true
                "fe80::1" fresh Hne)
      as (Hiss & _ & _ & [(Hst & _)|(_ & Hr & Hm)]).
    + exfalso. apply Hst. reflexivity.
    + split; [exact Hiss|]. split; [exact Hr|exact Hm].
  - destruct (modifyFromRule_counts_on_success netd_constants ko 5 true
                "fe80::1" fresh Hne)
      as (Hiss & _ & _ & [(_ & Hr & Hm)|(Hst & _)]).
    + split; [exact Hiss|]. split; [exact Hr|exact Hm].
    + discriminate Hst.
Defined.

Lemma modifyLocalRoute_run K E netId action iface addr s :
  let ret := (modifyLocalRoute K E netId action iface addr s).1 in
  let s' := (modifyLocalRoute K E netId action iface addr s).2 in
  ∃ status,
    issued s s'
    = [(Exec [IP_PATH K; "route"; action; addr; "dev"; iface; "table";
              tableIndex_str K netId], status)]
    ∧ ret = status
    ∧ sent s' = sent s ∧ errno s' = errno s
    ∧ mNetIdRuleCount s'
      = mNetIdRuleCount (modifyRuleCount K netId action s).2.
Proof.
  intros ret s'. subst ret s'. unfold modifyLocalRoute, mbind, M_bind.
  pose proof (modifyRuleCount_frame K netId action s) as (He & Ht & Hr).
  destruct (modifyRuleCount K netId action s) as [[] s1].
  cbn in He, Ht, Hr |- *. run_calls. rewrite Ht.
  name_status status. exists status. cbn.
  split; [by apply issued_app|]. done.
Qed.

(** X12.  [modifyLocalRoute] changes the count before it runs its command
    and whatever the command answers: the count is incremented ([ADD]) or
    decremented ([DEL]) also when the command fails, and the value returned
    is the command's status. *)
Theorem modifyLocalRoute_counts_regardless K E netId (add : bool)
    iface addr s :
  ADD K ≠ DEL K →
  let ret := (modifyLocalRoute K E netId (action_of K add) iface addr s).1 in
  let s' := (modifyLocalRoute K E netId (action_of K add) iface addr s).2 in
  ∃ status,
    issued s s'
    = [(Exec [IP_PATH K; "route"; action_of K add; addr; "dev"; iface;
              "table"; tableIndex_str K netId], status)]
    ∧ ret = status
    ∧ mNetIdRuleCount s'
      = (if add then increment else decrement) (mNetIdRuleCount s) netId.
Proof.
  intros Hne ret s'. subst ret s'.
  destruct (modifyLocalRoute_run K E netId (action_of K add) iface addr s)
    as (status & Hiss & Hret & _ & _ & Hm).
  exists status. split; [done|]. split; [done|].
  rewrite Hm. unfold action_of. destruct add.
  - apply modifyRuleCount_ADD.
  - apply modifyRuleCount_other. congruence.
Qed.

Lemma modifyLocalRoute_counts_regardless_witness :
  let E := scripted_env (λ _, true) true in
  let ret := (modifyLocalRoute netd_constants E 5
                (action_of netd_constants false) "tun0" "10.0.0.2"
                with_route).1 in
  let s' := (modifyLocalRoute netd_constants E 5
               (action_of netd_constants false) "tun0" "10.0.0.2"
               with_route).2 in
  ∃ status,
    issued with_route s'
    = [(Exec [IP_PATH netd_constants; "route";
              action_of netd_constants false; "10.0.0.2"; "dev"; "tun0";
              "table"; tableIndex_str netd_constants 5], status)]
    ∧ ret = status
    ∧ mNetIdRuleCount s' = decrement (mNetIdRuleCount with_route) 5.
Proof.
  intros E.
  apply (modifyLocalRoute_counts_regardless netd_constants E 5 false "tun0"
           "10.0.0.2" with_route).
  discriminate.
Defined.

(** X13.  After [modifyLocalRoute] with [ADD] for an interface's network
    id, even when its command failed, [setFwmarkRule] for that interface is
    refused with [EBUSY] and runs no command. *)
Theorem local_route_blocks_fwmark_even_if_failed K E iface dev addr add s :
  let s1 := (modifyLocalRoute K E (getNetworkId E iface) (ADD K) dev addr
               s).2 in
  let ret := (setFwmarkRule K E iface add s1).1 in
  let s2 := (setFwmarkRule K E iface add s1).2 in
  ret = -1 ∧ errno s2 = EBUSY ∧ issued s1 s2 = []
  ∧ mNetIdRuleCount s2 = mNetIdRuleCount s1.
Proof.
  intros s1 ret s2. subst ret s2.
  destruct (modifyLocalRoute_run K E (getNetworkId E iface) (ADD K) dev addr s)
    as (status & _ & _ & _ & _ & Hm).
  fold s1 in Hm. rewrite modifyRuleCount_ADD in Hm.
  rewrite setFwmarkRule_busy.
  - cbn. split_and!; try done. by apply issued_nil.
  - apply present_counted. rewrite Hm. apply increment_present.
Qed.

(** ** Address families, host exemptions and the hooks *)

Lemma string_app_cons a s1 s2 : String a s1 +:+ s2 = String a (s1 +:+ s2).
Proof. reflexivity. Qed.

Lemma strchr_colon_iff addr :
  strchr addr ":" = true ↔ ∃ a b, addr = a +:+ String ":" b.
Proof.
  induction addr as [|c addr IH]; simpl.
  - split; [done|]. intros ([|? a] & b & Heq); discriminate.
  - destruct (Ascii.eqb_spec c ":") as [->|Hc].
    + split; [|done]. intros _. by exists "", addr.
    + rewrite IH. split.
      * intros (a & b & ->). by exists (String c a), b.
      * intros ([|c' a] & b & Heq).
        -- injection Heq as -> _. done.
        -- rewrite string_app_cons in Heq. injection Heq as -> ->.
           by exists a, b.
Qed.

(** X14.  The two ways the code derives an address family agree, and both
    say IPv6 exactly when the address contains a colon: [getVersion] gives
    "-6", [getIptablesTarget] gives [V6], and the target that
    [setHostExemption] computes from [getVersion] is the one
    [getIptablesTarget] gives. *)
Theorem address_family_by_colon addr :
  (getIptablesTarget addr = V6 ↔ ∃ a b, addr = a +:+ String ":" b)
  ∧ (getVersion addr = "-6" ↔ getIptablesTarget addr = V6)
  ∧ (getVersion addr = "-4" ↔ getIptablesTarget addr = V4)
  ∧ (if String.eqb (getVersion addr) "-4" then V4 else V6)
    = getIptablesTarget addr.
Proof.
  rewrite <- strchr_colon_iff. unfold getVersion, getIptablesTarget.
  destruct (strchr addr ":"); simpl; split_and!; try done; by split.
Qed.

(** X15.  [setHostExemption] always makes both of its invocations, the
    iptables mark rule and then the [ip rule], whether or not the first
    fails; it returns the bitwise or of the two statuses, which is 0 exactly
    when both succeeded; the family of both commands follows the colon in
    the host; and it changes neither the reference counts nor [errno]. *)
Theorem host_exemption_attempts_both K E PROTECT_MARK EXEMPT_PRIO host add s :
  let ret := (setHostExemption K E PROTECT_MARK EXEMPT_PRIO host add s).1 in
  let s' := (setHostExemption K E PROTECT_MARK EXEMPT_PRIO host add s).2 in
  ∃ st1 st2,
    issued s s'
    = zip (exemption_calls K PROTECT_MARK EXEMPT_PRIO host add) [st1; st2]
    ∧ ret = Z.lor st1 st2
    ∧ (ret = 0 ↔ st1 = 0 ∧ st2 = 0)
    ∧ mNetIdRuleCount s' = mNetIdRuleCount s
    ∧ errno s' = errno s ∧ sent s' = sent s.
Proof.
  intros ret s'. subst ret s'.
  unfold setHostExemption, mbind, M_bind.
  destruct (address_family_by_colon host) as (_ & _ & _ & ->).
  run_calls. name_status st1. name_status st2.
  exists st1, st2. cbn.
  split; [apply issued_app; cbn; by rewrite <- app_assoc|].
  split; [done|]. split; [apply Z.lor_eq_0_iff|done].
Qed.

(** X16.  [setupIptablesHooks] always makes its four iptables invocations
    in order, whatever the earlier ones answer, and returns the bitwise or
    of the four statuses: 0 exactly when all four succeeded.  It changes
    neither the reference counts nor [errno]. *)
Theorem hooks_setup_attempts_all E PROTECT_MARK s :
  let ret := (setupIptablesHooks E PROTECT_MARK s).1 in
  let s' := (setupIptablesHooks E PROTECT_MARK s).2 in
  ∃ st1 st2 st3 st4,
    issued s s' = zip (hooks_calls PROTECT_MARK) [st1; st2; st3; st4]
    ∧ ret = Z.lor (Z.lor (Z.lor st1 st2) st3) st4
    ∧ (ret = 0 ↔ st1 = 0 ∧ st2 = 0 ∧ st3 = 0 ∧ st4 = 0)
    ∧ mNetIdRuleCount s' = mNetIdRuleCount s
    ∧ errno s' = errno s ∧ sent s' = sent s.
Proof.
  intros ret s'. subst ret s'.
  unfold setupIptablesHooks, mbind, M_bind.
  run_calls. name_status st1. name_status st2. name_status st3.
  name_status st4.
  exists st1, st2, st3, st4. cbn.
  split; [apply issued_app; cbn; by rewrite <- !app_assoc|].
  split; [done|]. split; [|done].
  rewrite !Z.lor_eq_0_iff. tauto.
Qed.

(** X17.  [setFwmarkRoute] is not behind the busy guard: in a state where
    the network id of the interface is counted, so that [setFwmarkRule]
    runs nothing, [setFwmarkRoute] still runs its one iptables command, in
    the interface's chain and with the network's mark, returns that
    command's status and leaves the counts alone. *)
Theorem fwmark_route_not_guarded K E iface dest prefix (add : bool) s :
  0 < refcount s (getNetworkId E iface) →
  let ret := (setFwmarkRoute K E iface dest prefix add s).1 in
  let s' := (setFwmarkRoute K E iface dest prefix add s).2 in
  issued s (setFwmarkRule K E iface add s).2 = []
  ∧ ∃ status,
      issued s s'
      = [(Iptables (if strchr dest ":" then V6 else V4)
            ["-t"; "mangle"; if add then "-A" else "-D"; chain_str iface;
             "-d"; dest_str dest prefix; "-j"; "MARK"; "--set-mark";
             tableIndex_str K (getNetworkId E iface)], status)]
      ∧ ret = status
      ∧ mNetIdRuleCount s' = mNetIdRuleCount s.
Proof.
  intros Hcount%refcount_positive_counted ret s'. subst ret s'. split.
  - rewrite setFwmarkRule_busy by done. by apply issued_nil.
  - unfold setFwmarkRoute. run_calls. name_status status.
    exists status. cbn. split; [by apply issued_app|done].
Qed.

Lemma fwmark_route_not_guarded_witness :
  let E := scripted_env (λ _, false) true in
  let ret := (setFwmarkRoute netd_constants E "tun0" "10.1.0.0" 16 true
                with_route).1 in
  let s' := (setFwmarkRoute netd_constants E "tun0" "10.1.0.0" 16 true
               with_route).2 in
  issued with_route (setFwmarkRule netd_constants E "tun0" true with_route).2
  = []
  ∧ ∃ status,
      issued with_route s'
      = [(Iptables (if strchr "10.1.0.0" ":" then V6 else V4)
            ["-t"; "mangle"; "-A"; chain_str "tun0";
             "-d"; dest_str "10.1.0.0" 16; "-j"; "MARK"; "--set-mark";
             tableIndex_str netd_constants (getNetworkId E "tun0")], status)]
      ∧ ret = status
      ∧ mNetIdRuleCount s' = mNetIdRuleCount with_route.
Proof.
  intros E.
  apply (fwmark_route_not_guarded netd_constants E "tun0" "10.1.0.0" 16 true
           with_route).
  by vm_compute.
Defined.

(** X18.  [getUidMark] answers with one [GetMarkResult] reply carrying the
    table index of the uid's network, runs no command and changes no
    count; and for networks within [unsigned] the replies for two uids are
    the same exactly when the uids are on the same network. *)
Theorem uid_marks_tell_networks_apart K getNetwork uid1 uid2 s :
  let n1 := getNetwork (trace s) uid1 in
  let n2 := getNetwork (trace s) uid2 in
  let s1 := (getUidMark K getNetwork uid1 s).2 in
  let s2 := (getUidMark K getNetwork uid2 s).2 in
  (n1 < 2 ^ 32)%N → (n2 < 2 ^ 32)%N →
  replied s s1 = [(GetMarkResult, tableIndex_str K n1, false)]
  ∧ issued s s1 = []
  ∧ mNetIdRuleCount s1 = mNetIdRuleCount s
  ∧ (replied s s1 = replied s s2 ↔ n1 = n2).
Proof.
  intros n1 n2 s1 s2 H1 H2.
  assert (Hrep : ∀ uid,
            replied s (getUidMark K getNetwork uid s).2
            = [(GetMarkResult, tableIndex_str K (getNetwork (trace s) uid),
                false)]).
  { intros uid. by apply replied_app. }
  split; [apply Hrep|]. split; [by apply issued_nil|]. split; [done|].
  subst s1 s2. rewrite !Hrep. fold n1 n2. split.
  - intros [= Heq]. by apply tableIndex_str_inj_unsigned in Heq.
  - by intros ->.
Qed.

Lemma uid_marks_tell_networks_apart_witness :
  let getNetwork := λ (_ : list Event) (uid : Z),
                      if decide (10000 ≤ uid ≤ 10999) then 5%N else 0%N in
  let s1 := (getUidMark netd_constants getNetwork 10500 fresh).2 in
  let s2 := (getUidMark netd_constants getNetwork 1000 fresh).2 in
  replied fresh s1 = [(GetMarkResult, tableIndex_str netd_constants 5, false)]
  ∧ issued fresh s1 = []
  ∧ mNetIdRuleCount s1 = mNetIdRuleCount fresh
  ∧ (replied fresh s1 = replied fresh s2 ↔ 5%N = 0%N).
Proof.
  intros getNetwork.
  apply (uid_marks_tell_networks_apart netd_constants getNetwork 10500 1000
           fresh); by vm_compute.
Defined.

(** ** Fwmark rules when every command succeeds *)

Lemma setFwmarkRule_all_succeed K E iface add s :
  all_succeed E →
  map_count (mNetIdRuleCount s) (getNetworkId E iface) = 0 →
  setFwmarkRule K E iface add s
  = (0, {| mNetIdRuleCount := mNetIdRuleCount s; errno := errno s;
           trace := trace s
                    ++ zip (take 9 (fwmark_steps K add iface
                                      (tableIndex_str K
                                         (getNetworkId E iface))))
                         (replicate 9 0);
           sent := sent s |}).
Proof.
  intros [Hexec Hipt] Hclean.
  unfold setFwmarkRule, mbind, M_bind, get_map. cbn [mNetIdRuleCount].
  rewrite Hclean. rewrite decide_False by lia.
  run_calls. rewrite !Hexec. rewrite decide_False by lia.
  run_calls. rewrite !Hexec. rewrite decide_False by lia.
  destruct add; run_calls; rewrite !Hipt; rewrite decide_False by lia;
    run_calls; rewrite !Hipt; rewrite decide_False by lia;
    cbn; by rewrite <- !app_assoc.
Qed.

(** X19.  When every external command succeeds, [setFwmarkRule] past its
    guard returns 0 after exactly the nine unconditional sub-steps, in
    source order: the IPv6 reject rule is not among them. *)
Theorem fwmark_rule_all_succeed_runs_nine K E iface add s :
  all_succeed E →
  map_count (mNetIdRuleCount s) (getNetworkId E iface) = 0 →
  let ret := (setFwmarkRule K E iface add s).1 in
  let s' := (setFwmarkRule K E iface add s).2 in
  let mark_str := tableIndex_str K (getNetworkId E iface) in
  ret = 0
  ∧ issued s s' = zip (take 9 (fwmark_steps K add iface mark_str))
                    (replicate 9 0)
  ∧ ∀ status, (Iptables V6 (reject_args add mark_str), status) ∉ issued s s'.
Proof.
  intros Hall Hclean ret s' mark_str. subst ret s' mark_str.
  set (mark_str := tableIndex_str K (getNetworkId E iface)).
  rewrite setFwmarkRule_all_succeed by done. cbn [fst snd].
  fold mark_str.
  assert (Hiss : issued s
            {| mNetIdRuleCount := mNetIdRuleCount s; errno := errno s;
               trace := trace s
                        ++ zip (take 9 (fwmark_steps K add iface mark_str))
                             (replicate 9 0);
               sent := sent s |}
          = zip (take 9 (fwmark_steps K add iface mark_str)) (replicate 9 0))
    by (by apply issued_app).
  split; [done|]. split; [exact Hiss|].
  intros status Hin. rewrite Hiss in Hin.
  destruct add; cbn in Hin; split_elem_of; simplify_eq.
Qed.

Lemma fwmark_rule_all_succeed_runs_nine_witness :
  let E := scripted_env (λ _, false) true in
  let ret := (setFwmarkRule netd_constants E "tun0" false fresh).1 in
  let s' := (setFwmarkRule netd_constants E "tun0" false fresh).2 in
  let mark_str := tableIndex_str netd_constants (getNetworkId E "tun0") in
  ret = 0
  ∧ issued fresh s'
    = zip (take 9 (fwmark_steps netd_constants false "tun0" mark_str))
        (replicate 9 0)
  ∧ ∀ status,
      (Iptables V6 (reject_args false mark_str), status) ∉ issued fresh s'.
Proof.
  intros E.
  apply (fwmark_rule_all_succeed_runs_nine netd_constants E "tun0" false
           fresh).
  - split; intros; reflexivity.
  - reflexivity.
Defined.

(** X20.  When every external command succeeds, [addFwmarkRule] followed by
    [removeFwmarkRule] on an interface whose network id is not counted both
    return 0; together they run the nine install commands and then the nine
    uninstall commands, and the reference counts are as before. *)
Theorem enable_then_disable_succeeds K E iface s :
  all_succeed E →
  map_count (mNetIdRuleCount s) (getNetworkId E iface) = 0 →
  let mark_str := tableIndex_str K (getNetworkId E iface) in
  let s1 := (addFwmarkRule K E iface s).2 in
  let s2 := (removeFwmarkRule K E iface s1).2 in
  (addFwmarkRule K E iface s).1 = 0
  ∧ (removeFwmarkRule K E iface s1).1 = 0
  ∧ issued s s2
    = zip (take 9 (fwmark_steps K true iface mark_str)
           ++ take 9 (fwmark_steps K false iface mark_str))
        (replicate 18 0)
  ∧ mNetIdRuleCount s2 = mNetIdRuleCount s.
Proof.
  intros Hall Hclean mark_str s1 s2. subst s2 s1.
  unfold addFwmarkRule, removeFwmarkRule.
  rewrite (setFwmarkRule_all_succeed K E iface true s) by done.
  cbn [fst snd].
  rewrite setFwmarkRule_all_succeed by done.
  cbn [fst snd mNetIdRuleCount trace].
  split; [done|]. split; [done|]. split; [|done].
  apply issued_app. cbn [trace]. fold mark_str.
  rewrite <- app_assoc. f_equal.
Qed.

Lemma enable_then_disable_succeeds_witness :
  let E := scripted_env (λ _, false) true in
  let mark_str := tableIndex_str netd_constants (getNetworkId E "tun0") in
  let s1 := (addFwmarkRule netd_constants E "tun0" fresh).2 in
  let s2 := (removeFwmarkRule netd_constants E "tun0" s1).2 in
  (addFwmarkRule netd_constants E "tun0" fresh).1 = 0
  ∧ (removeFwmarkRule netd_constants E "tun0" s1).1 = 0
  ∧ issued fresh s2
    = zip (take 9 (fwmark_steps netd_constants true "tun0" mark_str)
           ++ take 9 (fwmark_steps netd_constants false "tun0" mark_str))
        (replicate 18 0)
  ∧ mNetIdRuleCount s2 = mNetIdRuleCount fresh.
Proof.
  intros E.
  apply (enable_then_disable_succeeds netd_constants E "tun0" fresh).
  - split; intros; reflexivity.
  - reflexivity.
Defined.

(** X21.  The three mangle-table invocations of [setFwmarkRule] go
    together: in a run in which any one of them was issued, all three
    were, as the fifth to seventh invocations and in source order (on
    removal: drop the jump rule, flush the chain, delete the chain),
    whatever statuses they returned. *)
Theorem mangle_block_runs_whole K E iface add s c status :
  map_count (mNetIdRuleCount s) (getNetworkId E iface) = 0 →
  let s' := (setFwmarkRule K E iface add s).2 in
  let mark_str := tableIndex_str K (getNetworkId E iface) in
  c ∈ mangle_calls add iface mark_str →
  (c, status) ∈ issued s s' →
  (take 3 (drop 4 (issued s s'))).*1 = mangle_calls add iface mark_str.
Proof.
  intros Hclean s' mark_str.
  destruct (setFwmarkRule_run K E iface add s Hclean)
    as (evs & (_ & _ & _ & Htrace) & Hrun).
  apply issued_app in Htrace. fold s' in Htrace. rewrite Htrace.
  fold mark_str in Hrun. clearbody mark_str. clear Htrace s'.
  inversion Hrun; subst; destruct add; cbn; intros Hc Hin;
    split_elem_of; simplify_eq; done.
Qed.

Lemma mangle_block_runs_whole_witness :
  let E := scripted_env nat6_fails true in
  let s' := (setFwmarkRule netd_constants E "tun0" false fresh).2 in
  (take 3 (drop 4 (issued fresh s'))).*1
  = mangle_calls false "tun0" "1005".
Proof.
  intros E.
  apply (mangle_block_runs_whole netd_constants E "tun0" false fresh
           (Iptables V4V6 ["-t"; "mangle"; "-X"; "st_mangle_tun0_OUTPUT"]) 0).
  - reflexivity.
  - vm_compute. do 2 apply list_elem_of_further. apply list_elem_of_here.
  - vm_compute. do 6 apply list_elem_of_further. apply list_elem_of_here.
Defined.

(** X22.  Removing the last counted route frees the network: when the
    count of the interface's network id is 1 and [removeRoute] succeeds,
    the entry is erased, and [setFwmarkRule] for that interface then passes
    the guard and starts with its default-route command. *)
Theorem last_route_removed_unblocks_fwmark K E iface dest prefix gateway
    add s :
  ADD K ≠ DEL K →
  mNetIdRuleCount s !! getNetworkId E iface = Some 1 →
  (removeRoute K E iface dest prefix gateway s).1 = 0 →
  let s1 := (removeRoute K E iface dest prefix gateway s).2 in
  let s2 := (setFwmarkRule K E iface add s1).2 in
  mNetIdRuleCount s1 = delete (getNetworkId E iface) (mNetIdRuleCount s)
  ∧ ∃ status rest,
      issued s1 s2
      = (Exec (route_cmd K iface add
                 (tableIndex_str K (getNetworkId E iface))), status)
        :: rest.
Proof.
  intros Hne Hone Hok s1 s2.
  destruct (removeRoute_status K E iface dest prefix gateway s Hne)
    as [[_ Hm]|[Hr _]]; [|lia].
  fold s1 in Hm. unfold decrement in Hm. rewrite Hone in Hm.
  rewrite decide_True in Hm by (by vm_compute).
  split; [done|].
  assert (map_count (mNetIdRuleCount s1) (getNetworkId E iface) = 0) as Hclean.
  { unfold map_count. by rewrite Hm, lookup_delete_eq. }
  destruct (setFwmarkRule_run K E iface add s1 Hclean)
    as (evs & (_ & _ & _ & Htrace) & Hrun).
  apply issued_app in Htrace. fold s2 in Htrace. rewrite Htrace.
  inversion Hrun; destruct add; cbn; eauto.
Qed.

Lemma last_route_removed_unblocks_fwmark_witness :
  let E := scripted_env (λ _, false) true in
  let s1 := (removeRoute netd_constants E "tun0" "10.1.0.0" 16 "10.0.0.1"
               with_route).2 in
  let s2 := (setFwmarkRule netd_constants E "tun0" true s1).2 in
  mNetIdRuleCount s1
  = delete (getNetworkId E "tun0") (mNetIdRuleCount with_route)
  ∧ ∃ status rest,
      issued s1 s2
      = (Exec (route_cmd netd_constants "tun0" true
                 (tableIndex_str netd_constants (getNetworkId E "tun0"))),
         status) :: rest.
Proof.
  intros E.
  apply (last_route_removed_unblocks_fwmark netd_constants E "tun0"
           "10.1.0.0" 16 "10.0.0.1" true with_route).
  - discriminate.
  - reflexivity.
  - reflexivity.
Defined.
